(** * duckpy: the parsing, command-resolution and execution engine of
    [duckpy/duck.py], embedded in Rocq.

    Strings are Rocq [string]s, i.e. sequences of 8-bit characters; the
    scripts are taken to be ASCII text, so [str.lower], [str.strip] and
    [int] are modelled on ASCII characters.  Python integers are [Z].
    Objects that the program mutates and shares ([DuckyCommand] instances,
    the command list of a [DuckyScript]) live in an explicit store. *)

From Stdlib Require Import ZArith Ascii String.
From stdpp Require Import base tactics option list strings relations.

Local Open Scope string_scope.
Local Open Scope list_scope.
Local Open Scope Z_scope.

(** ** Outcomes of Python code *)

(** The exception classes the modelled code can raise. *)
Inductive Exn : Set :=
| ValueError
| IndexError
| TypeError
| KeyError
| AttributeError.

(** The outcome of a call: a value, a raised exception, or [Undef] when the
    model has no Python behaviour to report (the recursion budget of a
    fuelled definition ran out, or an address outside the store was used). *)
Inductive Res (A : Type) : Type :=
| Ok (a : A)
| Raise (e : Exn)
| Undef.

Arguments Ok {A} a.
Arguments Raise {A} e.
Arguments Undef {A}.

Definition bindR {A B : Type} (m : Res A) (f : A -> Res B) : Res B :=
  match m with
  | Ok a => f a
  | Raise e => Raise e
  | Undef => Undef
  end.

Declare Scope res_scope.
Delimit Scope res_scope with res.
Notation "'let*' x := m 'in' k" := (bindR m (fun x => k))
  (at level 10, x name, m at level 100, k at level 200) : res_scope.

Fixpoint mapR {A B : Type} (f : A -> Res B) (l : list A) : Res (list B) :=
  match l with
  | [] => Ok []
  | x :: l' =>
      (let* y := f x in let* ys := mapR f l' in Ok (y :: ys))%res
  end.

(** ** Python string and sequence primitives *)

Module Py.

(** [str.isspace] on the ASCII range: TAB, LF, VT, FF, CR, FS, GS, RS, US
    and the space. *)
Definition is_space (c : ascii) : bool :=
  let n := nat_of_ascii c in
  ((9 <=? n)%nat && (n <=? 13)%nat) || ((28 <=? n)%nat && (n <=? 32)%nat).

Fixpoint lstrip (s : string) : string :=
  match s with
  | EmptyString => EmptyString
  | String c s' => if is_space c then lstrip s' else s
  end.

Fixpoint rstrip (s : string) : string :=
  match s with
  | EmptyString => EmptyString
  | String c s' =>
      match rstrip s' with
      | EmptyString => if is_space c then EmptyString else String c EmptyString
      | r => String c r
      end
  end.

(** [s.strip()] *)
Definition strip (s : string) : string := rstrip (lstrip s).

(** [c in s] for a one-character [c] *)
Fixpoint contains (c : ascii) (s : string) : bool :=
  match s with
  | EmptyString => false
  | String c' s' => Ascii.eqb c' c || contains c s'
  end.

(** [s.split(sep)] for a one-character separator *)
Fixpoint split (sep : ascii) (s : string) : list string :=
  match s with
  | EmptyString => [EmptyString]
  | String c s' =>
      if Ascii.eqb c sep then EmptyString :: split sep s'
      else match split sep s' with
           | h :: t => String c h :: t
           | [] => [String c EmptyString]
           end
  end.

(** [s.split(sep, maxsplit=1)] for a one-character separator *)
Fixpoint split1 (sep : ascii) (s : string) : list string :=
  match s with
  | EmptyString => [EmptyString]
  | String c s' =>
      if Ascii.eqb c sep then [EmptyString; s']
      else match split1 sep s' with
           | h :: t => String c h :: t
           | [] => [String c EmptyString]
           end
  end.

Definition lower_char (c : ascii) : ascii :=
  let n := nat_of_ascii c in
  if (65 <=? n)%nat && (n <=? 90)%nat then ascii_of_nat (n + 32) else c.

(** [s.lower()] *)
Fixpoint lower (s : string) : string :=
  match s with
  | EmptyString => EmptyString
  | String c s' => String (lower_char c) (lower s')
  end.

Definition is_digit (c : ascii) : bool :=
  let n := nat_of_ascii c in (48 <=? n)%nat && (n <=? 57)%nat.

Definition digit_val (c : ascii) : Z := Z.of_nat (nat_of_ascii c) - 48.

(** The digit part of an integer literal: decimal digits, with single
    underscores allowed between two digits. [prev] tells whether the
    previous character was a digit. *)
Fixpoint digits (acc : Z) (prev : bool) (s : string) : option Z :=
  match s with
  | EmptyString => if prev then Some acc else None
  | String c s' =>
      if is_digit c then digits (10 * acc + digit_val c) true s'
      else if Ascii.eqb c "_" && prev then digits acc false s'
      else None
  end.

(** The whitespace [int] skips around a literal: TAB, LF, VT, FF, CR and
    the space. FS, GS, RS and US, which [str.strip] drops, are not among
    them. *)
Definition is_int_space (c : ascii) : bool :=
  let n := nat_of_ascii c in
  ((9 <=? n)%nat && (n <=? 13)%nat) || (n =? 32)%nat.

Fixpoint int_lstrip (s : string) : string :=
  match s with
  | EmptyString => EmptyString
  | String c s' => if is_int_space c then int_lstrip s' else s
  end.

Fixpoint int_rstrip (s : string) : string :=
  match s with
  | EmptyString => EmptyString
  | String c s' =>
      match int_rstrip s' with
      | EmptyString =>
          if is_int_space c then EmptyString else String c EmptyString
      | r => String c r
      end
  end.

(** The number of digits of a literal; its underscores do not count. *)
Fixpoint count_digits (s : string) : Z :=
  match s with
  | EmptyString => 0
  | String c s' => (if is_digit c then 1 else 0) + count_digits s'
  end.

(** [sys.get_int_max_str_digits()], at its default. *)
Definition int_max_str_digits : Z := 4300.

(** [int(s)] for a string [s]: the whitespace around the literal is
    skipped, one sign is allowed, and a literal of more digits than
    [int_max_str_digits] is refused; every failure is a ValueError. *)
Definition int (s : string) : Res Z :=
  let s := int_rstrip (int_lstrip s) in
  let (negative, literal) :=
    match s with
    | String "-" s' => (true, s')
    | String "+" s' => (false, s')
    | _ => (false, s)
    end in
  match digits 0 false literal with
  | Some z =>
      if int_max_str_digits <? count_digits literal
      then Raise ValueError
      else Ok (if negative then - z else z)
  | None => Raise ValueError
  end.

(** [l[i]] on a list or tuple: negative indices count from the end,
    anything out of range raises IndexError. *)
Definition getitem {A : Type} (l : list A) (i : Z) : Res A :=
  let n := Z.of_nat (length l) in
  let j := if i <? 0 then i + n else i in
  if (0 <=? j) && (j <? n) then
    match l !! Z.to_nat j with
    | Some x => Ok x
    | None => Raise IndexError
    end
  else Raise IndexError.

(** [x in l] for strings *)
Definition str_in (x : string) (l : list string) : bool :=
  existsb (String.eqb x) l.

(** [d.get(k)] on a dict written as its list of items *)
Fixpoint dict_get (d : list (string * string)) (k : string) : option string :=
  match d with
  | [] => None
  | (k', v) :: d' => if String.eqb k' k then Some v else dict_get d' k
  end.

End Py.

(** ** Module constants *)

Definition COMMANDS : list string :=
  ["REM"; "DEFAULT_DELAY"; "DELAY"; "STRING"; "REPEAT"].

Definition ALIAS : list (string * string) :=
  [ ("DEFAULTDELAY", "DEFAULT_DELAY");
    ("WINDOWS", "GUI");
    ("MENU", "APP");
    ("CONTROL", "CTRL");
    ("DOWNARROW", "DOWN");
    ("UPARROW", "UP");
    ("LEFTARROW", "LEFT");
    ("RIGHTARROW", "RIGHT");
    ("BREAK", "PAUSE");
    ("ESC", "ESCAPE") ].

(** [sys.platform == 'darwin'] decides the name of the GUI key. *)
Definition TRANSLATE_KEYS (darwin : bool) : list (string * string) :=
  [ ("GUI", if darwin then "command" else "winleft");
    ("APP", "apps") ].

(** ** Key and alias resolution *)

Definition is_valid_alias (dcmd : string) : bool :=
  Py.str_in dcmd (ALIAS.*1).

(** The result is [ALIAS.get(dalias, None)]: a string, or Python's [None]. *)
Definition get_alias_target (dalias : string) : Res (option string) :=
  if negb (is_valid_alias dalias) then Raise ValueError
  else Ok (Py.dict_get ALIAS dalias).

(** A key name handed to pyautogui, or Python's [None]. *)
Definition pykey : Type := option string.

(** [k is None] *)
Definition is_None (k : pykey) : bool :=
  match k with
  | None => true
  | Some _ => false
  end.

Section Resolver.

(** The host: the platform test and [pyautogui.KEYBOARD_KEYS], the key
    names the input-injection library accepts. *)
Variable darwin : bool.
Variable KEYBOARD_KEYS : list string.

(** The part of [translate_key] after the test for ['-']. *)
Definition translate_plain (dkey : string) : Res (list pykey) :=
  (let* dkey := (if is_valid_alias dkey then get_alias_target dkey
                 else Ok (Some dkey)) in
   match dkey with
   | None => Raise AttributeError
   | Some dkey =>
       let pykey :=
         Py.lower (default dkey (Py.dict_get (TRANSLATE_KEYS darwin) dkey)) in
       if negb (Py.str_in pykey KEYBOARD_KEYS) then Ok [None]
       else Ok [Some pykey]
   end)%res.

(** [translate_key], with the depth of its recursion bounded by [fuel]. *)
Fixpoint translate_key_rec (fuel : nat) (dkey : string) : Res (list pykey) :=
  match fuel with
  | O => Undef
  | S fuel' =>
      if Py.contains "-" dkey then
        mapR (fun key =>
                (let* r := translate_key_rec fuel' key in Py.getitem r 0)%res)
             (Py.split "-" dkey)
      else translate_plain dkey
  end.

(** Every part of a split is shorter than the whole, so the length of the
    key bounds the depth. *)
Definition translate_key (dkey : string) : Res (list pykey) :=
  translate_key_rec (S (String.length dkey)) dkey.

Definition is_valid_cmd (dcmd : string) : Res bool :=
  (let* keys := translate_key dcmd in
   if existsb is_None keys
   then Ok (Py.str_in dcmd COMMANDS)
   else Ok true)%res.

End Resolver.

(** ** Objects *)

(** Address of a [DuckyCommand] object in the store. *)
Notation addr := nat (only parsing).

(** The first argument bound to [_cmd_repeat]: a [DuckyCommand] object, or
    the function object [_cmd_rem] that [_to_python] falls back on. *)
Inductive Target : Type :=
| TCmd (a : addr)
| TRemFunc.

#[global] Instance Target_eq_dec : EqDecision Target.
Proof. solve_decision. Defined.

(** The closures built by [_set_args(func, *args)]: the wrapped function
    with its bound arguments. *)
Inductive PyFunc : Type :=
| Fn_cmd_rem (comment : string)
| Fn_cmd_delay (ms : Z)
| Fn_set_default_delay (new_delay : Z)
| Fn_typewrite (message : string)
| Fn_hotkey (keys : list pykey)
| Fn_cmd_repeat (dcmd : Target) (num_times : Z).

(** The [script] dictionary handed to a command. Its entries, where
    present, are the bound methods and the command list of the script of
    the world; a field tells whether the key is present. *)
Record ScriptDict : Type := mkScriptDict {
  has_get_default_delay : bool;
  has_set_default_delay : bool;
  has_commands : bool
}.

(** Truth value of [script]: [None] and the empty dict are false. *)
Definition truthy (script : option ScriptDict) : bool :=
  match script with
  | None => false
  | Some d =>
      has_get_default_delay d || has_set_default_delay d || has_commands d
  end.

(** The attributes of a [DuckyCommand] (the logger apart). *)
Module DuckyCommand.
Record t : Type := mk {
  _skip_delay : bool;
  _default_delay : Z;
  _script : option ScriptDict;
  lineno : Z;
  raw_line : string;
  python_func : PyFunc
}.
End DuckyCommand.

(** What [self.commands] of a script holds. [DuckyScript.__init__] stores
    one list object both in [self.commands] and under
    [self._script['commands']]; [SharedList] says that [self.commands] is
    still that very object, whose content is [iface_commands] below. *)
Inductive Commands : Type :=
| SharedList
| OwnList (l : list addr)
| OwnTuple (l : list addr).

(** The attributes of a [DuckyScript]. Of [self._script] only the list
    under ['commands'] is state: [iface_commands] is its content. *)
Module DuckyScript.
Record t : Type := mk {
  commands : Commands;
  _default_delay : Z;
  iface_commands : list addr;
  script_path : string
}.
End DuckyScript.

(** What a run does, in order. The first two mark the two steps of
    [DuckyCommand.execute] for the command at [a] (its two debug messages):
    the wait for the default delay [ms], and the call of
    [self.python_func]. The others are the calls that reach the host:
    [time.sleep(ms / 1000)], [pyautogui.typewrite(message)] and
    [pyautogui.hotkey( *keys)]. *)
Inductive Event : Type :=
| EvDefaultDelay (a : addr) (ms : Z)
| EvCall (a : addr)
| EvSleep (ms : Z)
| EvTypewrite (message : string)
| EvHotkey (keys : list pykey).

(** The state of the program: the [DuckyCommand] objects built so far, by
    address; the script; the attribute [_skip_delay] of the function object
    [_cmd_rem], once it has been set; and what has been done so far. *)
Record World : Type := mkWorld {
  heap : list DuckyCommand.t;
  script_obj : DuckyScript.t;
  rem_skip_delay : option bool;
  events : list Event
}.

(** ** The monad of stateful, fallible code: the state survives a raise. *)

Definition M (A : Type) : Type := World -> World * Res A.

Definition ret {A : Type} (a : A) : M A := fun w => (w, Ok a).
Definition raise {A : Type} (e : Exn) : M A := fun w => (w, Raise e).
Definition undef {A : Type} : M A := fun w => (w, Undef).
Definition lift {A : Type} (r : Res A) : M A := fun w => (w, r).

Definition bindM {A B : Type} (m : M A) (f : A -> M B) : M B :=
  fun w =>
    match m w with
    | (w', Ok a) => f a w'
    | (w', Raise e) => (w', Raise e)
    | (w', Undef) => (w', Undef)
    end.

Declare Scope m_scope.
Delimit Scope m_scope with M.
Notation "'let*' x := m 'in' k" := (bindM m (fun x => k))
  (at level 10, x name, m at level 100, k at level 200) : m_scope.
Notation "m1 ;; m2" := (bindM m1 (fun _ => m2))
  (at level 100, m2 at level 200, right associativity) : m_scope.

Definition emit (ev : Event) : M unit :=
  fun w =>
    (mkWorld (heap w) (script_obj w) (rem_skip_delay w) (events w ++ [ev]),
     Ok tt).

Definition set_heap (h : list DuckyCommand.t) : M unit :=
  fun w => (mkWorld h (script_obj w) (rem_skip_delay w) (events w), Ok tt).

Definition set_script (s : DuckyScript.t) : M unit :=
  fun w => (mkWorld (heap w) s (rem_skip_delay w) (events w), Ok tt).

Definition get_cmd (a : addr) : M DuckyCommand.t :=
  fun w => match heap w !! a with
           | Some c => (w, Ok c)
           | None => (w, Undef)
           end.

(** [for _ in range(n): body] *)
Fixpoint for_range (n : nat) (body : M unit) : M unit :=
  match n with
  | O => ret tt
  | S n' => (body ;; for_range n' body)%M
  end.

(** [for x in l: body(x)] *)
Fixpoint for_each {A : Type} (l : list A) (body : A -> M unit) : M unit :=
  match l with
  | [] => ret tt
  | x :: l' => (body x ;; for_each l' body)%M
  end.

(** ** Commands: construction and execution *)

Section Engine.

Variable darwin : bool.
Variable KEYBOARD_KEYS : list string.

(** [_cmd_delay(ms)]: [time.sleep] refuses a negative length. (Lengths are
    taken to be within what the clock of the host can hold: [in_clock]
    below.) *)
Definition _cmd_delay (ms : Z) : M unit :=
  if ms <? 0 then raise ValueError else emit (EvSleep ms).

(** The object [c] after [c._skip_delay = v]. *)
Definition with_skip_delay (v : bool) (c : DuckyCommand.t) : DuckyCommand.t :=
  DuckyCommand.mk v (DuckyCommand._default_delay c) (DuckyCommand._script c)
    (DuckyCommand.lineno c) (DuckyCommand.raw_line c)
    (DuckyCommand.python_func c).

(** [dcmd._skip_delay = v], on a command or on the function [_cmd_rem]. *)
Definition set_skip_delay (dcmd : Target) (v : bool) : M unit :=
  match dcmd with
  | TCmd a =>
      (let* c := get_cmd a in
       fun w => set_heap (<[a := with_skip_delay v c]> (heap w)) w)%M
  | TRemFunc =>
      fun w => (mkWorld (heap w) (script_obj w) (Some v) (events w), Ok tt)
  end.

(** [dcmd.execute()]: a function object has no such attribute. *)
Definition call_execute (execute : addr -> M unit) (dcmd : Target) : M unit :=
  match dcmd with
  | TCmd a => execute a
  | TRemFunc => raise AttributeError
  end.

(** [_cmd_repeat(dcmd, num_times)], over the [execute] it calls back. *)
Definition _cmd_repeat (execute : addr -> M unit)
    (dcmd : Target) (num_times : Z) : M unit :=
  (set_skip_delay dcmd true ;;
   for_range (Z.to_nat num_times) (call_execute execute dcmd) ;;
   set_skip_delay dcmd false)%M.

(** [DuckyScript._set_default_delay] and [_get_default_delay] *)
Definition _set_default_delay (new_delay : Z) : M unit :=
  fun w =>
    set_script (DuckyScript.mk (DuckyScript.commands (script_obj w)) new_delay
                  (DuckyScript.iface_commands (script_obj w))
                  (DuckyScript.script_path (script_obj w))) w.

Definition _get_default_delay : M Z :=
  fun w => (w, Ok (DuckyScript._default_delay (script_obj w))).

(** The getter of the property [DuckyCommand.default_delay]. (Its setter,
    which the module calls nowhere, is [default_delay_setter] below.) *)
Definition default_delay (self : DuckyCommand.t) : M Z :=
  if truthy (DuckyCommand._script self) then
    match DuckyCommand._script self with
    | Some d => if has_get_default_delay d then _get_default_delay
                else raise KeyError
    | None => raise TypeError
    end
  else ret (DuckyCommand._default_delay self).

(** Calling [self.python_func()]. The calls into pyautogui are taken to
    return. *)
Definition call (execute : addr -> M unit) (f : PyFunc) : M unit :=
  match f with
  | Fn_cmd_rem _ => ret tt
  | Fn_cmd_delay ms => _cmd_delay ms
  | Fn_set_default_delay new_delay => _set_default_delay new_delay
  | Fn_typewrite message => emit (EvTypewrite message)
  | Fn_hotkey keys => emit (EvHotkey keys)
  | Fn_cmd_repeat dcmd num_times => _cmd_repeat execute dcmd num_times
  end.

(** The first step of [DuckyCommand.execute]: the wait for the default
    delay, unless it is skipped. *)
Definition default_delay_step (a : addr) (self : DuckyCommand.t) : M unit :=
  (if negb (DuckyCommand._skip_delay self) then
     let* d := default_delay self in
     emit (EvDefaultDelay a d) ;;
     _cmd_delay d
   else ret tt)%M.

(** The body of [DuckyCommand.execute] for the object [self] at address
    [a], over the [execute] that the function of a repeat calls back. *)
Definition execute_body (execute : addr -> M unit) (a : addr)
    (self : DuckyCommand.t) : M unit :=
  (default_delay_step a self ;;
   emit (EvCall a) ;;
   call execute (DuckyCommand.python_func self))%M.

(** [DuckyCommand.execute], for the command at address [a]; [fuel] bounds
    the nesting of [execute] inside [_cmd_repeat]. *)
Fixpoint execute (fuel : nat) (a : addr) : M unit :=
  match fuel with
  | O => undef
  | S fuel' =>
      (let* self := get_cmd a in
       execute_body (execute fuel') a self)%M
  end.

(** [self._script[key]] inside [_to_python] *)
Definition script_item (self_script : option ScriptDict)
    (key : ScriptDict -> bool) : Res unit :=
  match self_script with
  | None => Raise TypeError
  | Some d => if key d then Ok tt else Raise KeyError
  end.

(** [translate_key(key)] for an entry of [dline], which is a string or,
    after [get_alias_target], possibly [None]. *)
Definition translate_item (key : option string) : Res (list pykey) :=
  match key with
  | None => Raise TypeError
  | Some k => translate_key darwin KEYBOARD_KEYS k
  end.

(** [DuckyCommand._to_python]. [self_script] and [self_lineno] are the
    attributes of [self] it reads and [commands] the content of the list
    under [self._script['commands']]. The result is the value of
    [self._skip_delay] on return (it is [False] on entry) and the function
    built. The debug messages are kept where formatting them can raise. *)
Definition _to_python (self_script : option ScriptDict) (self_lineno : Z)
    (commands : list addr) (dline : string) : Res (bool * PyFunc) :=
  let dline := Py.split1 " " (Py.strip dline) in
  (let* d0 := Py.getitem dline 0 in
   let* valid := is_valid_cmd darwin KEYBOARD_KEYS d0 in
   if negb valid then Raise ValueError
   else
     let* d0 := (if is_valid_alias d0 then get_alias_target d0
                 else Ok (Some d0)) in
     if bool_decide (d0 = Some "REM") then
       let* d1 := Py.getitem dline 1 in
       Ok (true, Fn_cmd_rem d1)
     else if bool_decide (d0 = Some "DELAY") then
       let* d1 := Py.getitem dline 1 in
       let* ms := Py.int d1 in
       Ok (false, Fn_cmd_delay ms)
     else if bool_decide (d0 = Some "DEFAULT_DELAY") then
       let* d1 := Py.getitem dline 1 in
       let* _ := script_item self_script has_set_default_delay in
       let* ms := Py.int d1 in
       Ok (false, Fn_set_default_delay ms)
     else if bool_decide (d0 = Some "STRING") then
       let* d1 := Py.getitem dline 1 in
       Ok (false, Fn_typewrite d1)
     else if bool_decide (d0 = Some "REPEAT") then
       let* d1 := Py.getitem dline 1 in
       let* to_repeat :=
         (let* _ := script_item self_script has_commands in
          match Py.getitem commands (self_lineno - 1) with
          | Ok a => Ok (TCmd a)
          | Raise IndexError => Ok TRemFunc
          | Raise e => Raise e
          | Undef => Undef
          end) in
       let* n := Py.int d1 in
       Ok (false, Fn_cmd_repeat to_repeat n)
     else
       let* keys :=
         mapR translate_item (d0 :: ((fun x => Some x) <$> tail dline)) in
       let keys := concat keys in
       (* ','.join(keys) in the debug message *)
       if existsb is_None keys then Raise TypeError
       else Ok (false, Fn_hotkey keys))%res.

(** The check of [script] in [DuckyCommand.__init__]. *)
Definition check_script (script : option ScriptDict) : Res unit :=
  if truthy script then
    match script with
    | Some d =>
        if has_get_default_delay d && has_set_default_delay d && has_commands d
        then Ok tt else Raise ValueError
    | None => Ok tt
    end
  else Ok tt.

(** [DuckyCommand(dline, lineno, default_delay, script)]: the address of
    the new object. When the constructor raises, no object is left. *)
Definition DuckyCommand_init (dline : string) (lineno : Z)
    (default_delay : Z) (script : option ScriptDict) : M addr :=
  fun w =>
    match
      (let* _ := check_script script in
       _to_python script lineno (DuckyScript.iface_commands (script_obj w))
         dline)%res
    with
    | Ok (skip, f) =>
        (mkWorld
           (heap w
            ++ [DuckyCommand.mk skip default_delay script lineno dline f])
           (script_obj w) (rem_skip_delay w) (events w),
         Ok (length (heap w)))
    | Raise e => (w, Raise e)
    | Undef => (w, Undef)
    end.

(** ** Scripts *)

(** [self._script] of a [DuckyScript]: all three entries. *)
Definition script_iface : ScriptDict := mkScriptDict true true true.

(** The world in which [DuckyScript(dpath)] has just returned, for a path
    that exists and is no directory: [self.commands] and
    [self._script['commands']] are one empty list. *)
Definition DuckyScript_init (dpath : string) : World :=
  mkWorld [] (DuckyScript.mk SharedList 0 [] dpath) None [].

(** The elements of [self.commands]. *)
Definition commands_of (s : DuckyScript.t) : list addr :=
  match DuckyScript.commands s with
  | SharedList => DuckyScript.iface_commands s
  | OwnList l => l
  | OwnTuple l => l
  end.

(** [type(self.commands) == tuple] *)
Definition is_tuple (s : DuckyScript.t) : bool :=
  match DuckyScript.commands s with
  | OwnTuple _ => true
  | _ => false
  end.

(** [self.commands.append(dcmd)]: a tuple has no [append]. *)
Definition commands_append (dcmd : addr) : M unit :=
  fun w =>
    let s := script_obj w in
    match DuckyScript.commands s with
    | SharedList =>
        set_script (DuckyScript.mk SharedList (DuckyScript._default_delay s)
                      (DuckyScript.iface_commands s ++ [dcmd])
                      (DuckyScript.script_path s)) w
    | OwnList l =>
        set_script (DuckyScript.mk (OwnList (l ++ [dcmd]))
                      (DuckyScript._default_delay s)
                      (DuckyScript.iface_commands s)
                      (DuckyScript.script_path s)) w
    | OwnTuple _ => (w, Raise AttributeError)
    end.

(** [self.commands = v] *)
Definition set_commands (v : Commands) : M unit :=
  fun w =>
    let s := script_obj w in
    set_script (DuckyScript.mk v (DuckyScript._default_delay s)
                  (DuckyScript.iface_commands s) (DuckyScript.script_path s)) w.

(** The loop of [DuckyScript.load] over the lines of the file, from line
    number [lineno] on. *)
Fixpoint load_lines (lineno : Z) (dfile : list string) : M unit :=
  match dfile with
  | [] => ret tt
  | line :: rest =>
      let line := Py.strip line in
      ((if 0 <? Z.of_nat (String.length line) then
          let* dcmd := DuckyCommand_init line lineno 0 (Some script_iface) in
          commands_append dcmd
        else ret tt) ;;
       load_lines (lineno + 1) rest)%M
  end.

(** [DuckyScript.load], where [dfile] is what iterating over the opened
    file yields: its lines, each with its line end. *)
Definition load (dfile : list string) : M unit :=
  ((fun w => if is_tuple (script_obj w) then set_commands (OwnList []) w
             else (w, Ok tt)) ;;
   load_lines 0 dfile ;;
   fun w => set_commands (OwnTuple (commands_of (script_obj w))) w)%M.

(** [DuckyScript.run]; each command is executed with the budget [fuel]. *)
Definition run (fuel : nat) (dfile : list string) : M unit :=
  ((fun w => if negb (is_tuple (script_obj w)) then load dfile w
             else (w, Ok tt)) ;;
   fun w => for_each (commands_of (script_obj w)) (execute fuel) w)%M.

End Engine.

(** ** A host *)

(** The lines of a text file whose rows are [rows]. *)
Definition file_of (rows : list string) : list string :=
  (fun r => r +:+ String (ascii_of_nat 10) EmptyString) <$> rows.

(** The key names of [pyautogui.KEYBOARD_KEYS]. *)
Definition pyautogui_KEYBOARD_KEYS : list string :=
  app ((fun n => String (ascii_of_nat n) EmptyString) <$>
    [9; 10; 13; 32; 33; 34; 35; 36; 37; 38; 39; 40; 41; 42; 43; 44; 45; 46; 47;
     48; 49; 50; 51; 52; 53; 54; 55; 56; 57; 58; 59; 60; 61; 62; 63; 64;
     91; 92; 93; 94; 95; 96;
     97; 98; 99; 100; 101; 102; 103; 104; 105; 106; 107; 108; 109; 110; 111;
     112; 113; 114; 115; 116; 117; 118; 119; 120; 121; 122;
     123; 124; 125; 126]%nat)
  [ "accept"; "add"; "alt"; "altleft"; "altright"; "apps"; "backspace";
    "browserback"; "browserfavorites"; "browserforward"; "browserhome";
    "browserrefresh"; "browsersearch"; "browserstop"; "capslock"; "clear";
    "convert"; "ctrl"; "ctrlleft"; "ctrlright"; "decimal"; "del"; "delete";
    "divide"; "down"; "end"; "enter"; "esc"; "escape"; "execute";
    "f1"; "f10"; "f11"; "f12"; "f13"; "f14"; "f15"; "f16"; "f17"; "f18";
    "f19"; "f2"; "f20"; "f21"; "f22"; "f23"; "f24"; "f3"; "f4"; "f5"; "f6";
    "f7"; "f8"; "f9"; "final"; "fn"; "hanguel"; "hangul"; "hanja"; "help";
    "home"; "insert"; "junja"; "kana"; "kanji"; "launchapp1"; "launchapp2";
    "launchmail"; "launchmediaselect"; "left"; "modechange"; "multiply";
    "nexttrack"; "nonconvert"; "num0"; "num1"; "num2"; "num3"; "num4";
    "num5"; "num6"; "num7"; "num8"; "num9"; "numlock"; "pagedown"; "pageup";
    "pause"; "pgdn"; "pgup"; "playpause"; "prevtrack"; "print";
    "printscreen"; "prntscrn"; "prtsc"; "prtscr"; "return"; "right";
    "scrolllock"; "select"; "separator"; "shift"; "shiftleft"; "shiftright";
    "sleep"; "space"; "stop"; "subtract"; "tab"; "up"; "volumedown";
    "volumemute"; "volumeup"; "win"; "winleft"; "winright"; "yen";
    "command"; "option"; "optionleft"; "optionright" ].

(** * Vocabulary of the properties *)

(** The token a line resolves to once its alias, if it is one, is replaced:
    what [_to_python] compares with the statement verbs. *)
Definition resolved (d0 : string) : Res (option string) :=
  if is_valid_alias d0 then get_alias_target d0 else Ok (Some d0).

(** [inv good R m]: from a good world, whatever its outcome, [m] ends in a
    good world related to the first by [R]. *)
Definition inv (good : World -> Prop) (R : World -> World -> Prop)
    {A : Type} (m : M A) : Prop :=
  forall w w' r, m w = (w', r) -> good w -> R w w' /\ good w'.

(** The worlds the constructors build: a repeat refers to an older object,
    every [script] dictionary passed the check of [__init__], and the
    command lists hold addresses of the store. *)
Record wf_world (w : World) : Prop := mk_wf {
  wf_acyclic : forall a c t n,
    heap w !! a = Some c ->
    DuckyCommand.python_func c = Fn_cmd_repeat (TCmd t) n -> (t < a)%nat;
  wf_checked : forall a c,
    heap w !! a = Some c -> check_script (DuckyCommand._script c) = Ok tt;
  wf_iface :
    Forall (fun a => (a < length (heap w))%nat)
      (DuckyScript.iface_commands (script_obj w));
  wf_commands :
    Forall (fun a => (a < length (heap w))%nat) (commands_of (script_obj w))
}.

(** The markers of [ev] name commands below [a]. *)
Definition marker_lt (a : addr) (ev : Event) : Prop :=
  match ev with
  | EvDefaultDelay b _ | EvCall b => (b < a)%nat
  | _ => True
  end.

(** [frame ah ae w w']: from [w] to [w'] the objects are the same up to
    their [_skip_delay], which is untouched from address [ah] on; the
    command lists are the same; and the events added mark commands below
    [ae] only. *)
Record frame (ah ae : addr) (w w' : World) : Prop := mk_frame {
  fr_heap : forall b c,
    heap w !! b = Some c ->
    exists v, heap w' !! b = Some (with_skip_delay v c) /\
              ((ah <= b)%nat -> v = DuckyCommand._skip_delay c);
  fr_len : length (heap w') = length (heap w);
  fr_commands :
    DuckyScript.commands (script_obj w') = DuckyScript.commands (script_obj w);
  fr_iface :
    DuckyScript.iface_commands (script_obj w')
    = DuckyScript.iface_commands (script_obj w);
  fr_events : exists tr, events w' = events w ++ tr /\ Forall (marker_lt ae) tr
}.

(** [self.python_func()] of the command at [a] is called. *)
Definition is_call (a : addr) (ev : Event) : bool :=
  match ev with
  | EvCall b => Nat.eqb b a
  | _ => false
  end.

(** The command at [a] waits its default delay. *)
Definition is_default_delay_of (a : addr) (ev : Event) : bool :=
  match ev with
  | EvDefaultDelay b _ => Nat.eqb b a
  | _ => false
  end.

Fixpoint count (p : Event -> bool) (tr : list Event) : nat :=
  match tr with
  | [] => 0%nat
  | ev :: tr' => ((if p ev then 1 else 0) + count p tr')%nat
  end.

(** The effective default delay of a command, in a world. *)
Definition effective_default_delay (w : World) (c : DuckyCommand.t) : Z :=
  if truthy (DuckyCommand._script c)
  then DuckyScript._default_delay (script_obj w)
  else DuckyCommand._default_delay c.

(** The world [w] with the events [tr] added. *)
Definition add_events (w : World) (tr : list Event) : World :=
  mkWorld (heap w) (script_obj w) (rem_skip_delay w) (events w ++ tr).

(** [ext w w']: every object of [w] is in [w'], at its address, the same
    up to its [_skip_delay]. *)
Definition ext (w w' : World) : Prop :=
  forall b c, heap w !! b = Some c ->
              exists v, heap w' !! b = Some (with_skip_delay v c).

(** The object [c] after [c._default_delay = v]. *)
Definition with_default_delay (v : Z) (c : DuckyCommand.t) : DuckyCommand.t :=
  DuckyCommand.mk (DuckyCommand._skip_delay c) v (DuckyCommand._script c)
    (DuckyCommand.lineno c) (DuckyCommand.raw_line c)
    (DuckyCommand.python_func c).

(** The setter of the property [DuckyCommand.default_delay], for the command
    at [a]: with a script it calls [self._script['set_default_delay']()],
    the bound method of the script, without its argument. *)
Definition default_delay_setter (a : addr) (new_delay : Z) : M unit :=
  (let* self := get_cmd a in
   if truthy (DuckyCommand._script self) then
     match DuckyCommand._script self with
     | Some d => if has_set_default_delay d then raise TypeError
                 else raise KeyError
     | None => raise TypeError
     end
   else fun w => set_heap (<[a := with_default_delay new_delay self]> (heap w)) w)%M.





(** The statements of a file: its lines, stripped, without the empty ones. *)
Fixpoint statements (dfile : list string) : list string :=
  match dfile with
  | [] => []
  | line :: rest =>
      let line := Py.strip line in
      if 0 <? Z.of_nat (String.length line) then line :: statements rest
      else statements rest
  end.





(** The world after [DuckyScript(path).load()] on a file with these rows. *)
Definition loaded (rows : list string) : World :=
  (load false pyautogui_KEYBOARD_KEYS (file_of rows)
     (DuckyScript_init "payload.txt")).1.

(** Functions that return whenever they are called: all but a repeat and
    a delay of negative length. *)
Definition never_raises (f : PyFunc) : bool :=
  match f with
  | Fn_cmd_delay ms => 0 <=? ms
  | Fn_cmd_repeat _ _ => false
  | _ => true
  end.

(** ** More of the module *)

(** The loop of [get_alias] over [ALIAS.items()]: the first alias whose
    target is [dcmd], or [None]. *)
Fixpoint first_alias_of (items : list (string * string)) (dcmd : string) :
    option string :=
  match items with
  | [] => None
  | (alias, cmd) :: items' =>
      if String.eqb dcmd cmd then Some alias else first_alias_of items' dcmd
  end.

(** [get_alias(dcmd)] *)
Definition get_alias (darwin : bool) (KEYBOARD_KEYS : list string)
    (dcmd : string) : Res (option string) :=
  (let* valid := is_valid_cmd darwin KEYBOARD_KEYS dcmd in
   if negb valid then Raise ValueError
   else if is_valid_alias dcmd then Raise TypeError
   else Ok (first_alias_of ALIAS dcmd))%res.

(** The line numbers [load] gives to the statements of a file, counting
    from [lineno]: blank lines are counted and give no statement. *)
Fixpoint statement_linenos (lineno : Z) (dfile : list string) : list Z :=
  match dfile with
  | [] => []
  | line :: rest =>
      if 0 <? Z.of_nat (String.length (Py.strip line))
      then lineno :: statement_linenos (lineno + 1) rest
      else statement_linenos (lineno + 1) rest
  end.

(** What the function [f] of a command that is no repeat does when called:
    the calls that reach the host. *)
Definition action_events (f : PyFunc) : list Event :=
  match f with
  | Fn_cmd_delay ms => [EvSleep ms]
  | Fn_typewrite message => [EvTypewrite message]
  | Fn_hotkey keys => [EvHotkey keys]
  | _ => []
  end.

(** The default delay of the script after [f] was called, when it was [d]. *)
Definition action_default_delay (f : PyFunc) (d : Z) : Z :=
  match f with
  | Fn_set_default_delay new_delay => new_delay
  | _ => d
  end.

(** [known KEYBOARD_KEYS k]: the key is [None], or a lower-case name of
    [KEYBOARD_KEYS]. *)
Definition known (KEYBOARD_KEYS : list string) (k : pykey) : Prop :=
  match k with
  | None => True
  | Some name => Py.str_in name KEYBOARD_KEYS = true /\ Py.lower name = name
  end.

(** The host is asked to sleep for [ms]. *)
Definition is_sleep (ms : Z) (ev : Event) : bool :=
  match ev with
  | EvSleep n => Z.eqb n ms
  | _ => false
  end.

(** How a computation ends, without its value. *)
Definition outcome {A : Type} (r : Res A) : Res unit :=
  match r with
  | Ok _ => Ok tt
  | Raise e => Raise e
  | Undef => Undef
  end.

(** The lengths, in milliseconds, that every host sleeps: up to
    [2^32 - 1]. For these [ms / 1000] is a float that [time.sleep] takes,
    and [_cmd_delay] is the code's: it waits, or raises ValueError for a
    negative length. Further from zero the division or the clock of the
    host overflows, and the code raises OverflowError (or OSError)
    instead. *)
Definition clock_max : Z := 4294967295.

Definition in_clock (ms : Z) : Prop := - clock_max <= ms <= clock_max.

(** The length of a DELAY is within the clock. *)
Definition delay_in_clock (f : PyFunc) : Prop :=
  match f with
  | Fn_cmd_delay ms => in_clock ms
  | _ => True
  end.

(** Functions that wait no negative length and set no negative default
    delay, all within the clock; repeats are left out. *)
Definition nonneg_waits (f : PyFunc) : bool :=
  match f with
  | Fn_cmd_delay ms => (0 <=? ms) && (ms <=? clock_max)
  | Fn_set_default_delay new_delay =>
      (0 <=? new_delay) && (new_delay <=? clock_max)
  | Fn_cmd_repeat _ _ => false
  | _ => true
  end.

(** The commands whose function is called in a trace, in order. *)
Fixpoint called (tr : list Event) : list addr :=
  match tr with
  | [] => []
  | EvCall a :: tr' => a :: called tr'
  | _ :: tr' => called tr'
  end.

(** * Properties *)

(** ** Strings *)

Lemma split_not_nil (sep : ascii) (s : string) : Py.split sep s <> [].
Proof.
  induction s as [|c s IH]; simpl; [done|].
  destruct (Ascii.eqb c sep); [done|].
  destruct (Py.split sep s); done.
Qed.

(** No part of a split contains the separator. *)
Lemma split_parts_no_sep (sep : ascii) (s part : string) :
  part ∈ Py.split sep s -> Py.contains sep part = false.
Proof.
  revert part. induction s as [|c s IH]; simpl; intros part Hin.
  - apply list_elem_of_singleton in Hin. by subst.
  - destruct (Ascii.eqb c sep) eqn:Hc.
    + apply elem_of_cons in Hin as [->|Hin]; [done|]. by apply IH.
    + destruct (Py.split sep s) as [|h t] eqn:Hs.
      * apply list_elem_of_singleton in Hin. subst. simpl. by rewrite Hc.
      * apply elem_of_cons in Hin as [->|Hin].
        -- simpl. rewrite Hc. simpl. apply IH. left.
        -- apply IH. by right.
Qed.

Lemma contains_length (sep : ascii) (s : string) :
  Py.contains sep s = true -> (0 < String.length s)%nat.
Proof. destruct s; simpl; [done|lia]. Qed.

(** A string without the separator is not split. *)
Lemma split1_no_sep (sep : ascii) (s : string) :
  Py.contains sep s = false -> Py.split1 sep s = [s].
Proof.
  induction s as [|c s IH]; simpl; [done|].
  intros [Hc Hs]%orb_false_elim. rewrite Hc, (IH Hs). done.
Qed.

Lemma dict_get_keys (d : list (string * string)) (k : string) :
  Py.str_in k (d.*1) = true -> is_Some (Py.dict_get d k).
Proof.
  induction d as [|[k' v] d IH]; simpl; [done|].
  intros [H|H]%orb_prop.
  - apply String.eqb_eq in H. subst. rewrite String.eqb_refl. by eexists.
  - destruct (String.eqb k' k); [by eexists|by apply IH].
Qed.

(** ** Key resolution is total *)

Section ResolverFacts.

Variable darwin : bool.
Variable KEYBOARD_KEYS : list string.

Lemma translate_plain_single (dkey : string) :
  exists k : pykey, translate_plain darwin KEYBOARD_KEYS dkey = Ok [k].
Proof.
  unfold translate_plain.
  destruct (is_valid_alias dkey) eqn:Ha.
  - unfold get_alias_target. rewrite Ha. cbn [negb bindR].
    destruct (dict_get_keys ALIAS dkey Ha) as [t ->].
    destruct (negb _); eauto.
  - cbn [bindR]. destruct (negb _); eauto.
Qed.

Lemma translate_key_rec_plain (fuel : nat) (dkey : string) :
  Py.contains "-" dkey = false ->
  translate_key_rec darwin KEYBOARD_KEYS (S fuel) dkey
  = translate_plain darwin KEYBOARD_KEYS dkey.
Proof. intros H. simpl. by rewrite H. Qed.

(** With a ['-'] in the key, one more level of recursion is all it takes:
    every part is translated by the plain branch. *)
Lemma translate_key_rec_dash (fuel : nat) (dkey : string) :
  Py.contains "-" dkey = true ->
  exists parts : list (list pykey),
    mapR (translate_plain darwin KEYBOARD_KEYS) (Py.split "-" dkey) = Ok parts /\
    translate_key_rec darwin KEYBOARD_KEYS (S (S fuel)) dkey = Ok (concat parts).
Proof.
  intros H.
  change (translate_key_rec darwin KEYBOARD_KEYS (S (S fuel)) dkey)
    with (if Py.contains "-" dkey
          then mapR (fun key =>
                       (let* r := translate_key_rec darwin KEYBOARD_KEYS (S fuel) key in
                        Py.getitem r 0)%res) (Py.split "-" dkey)
          else translate_plain darwin KEYBOARD_KEYS dkey).
  rewrite H.
  pose proof (split_parts_no_sep "-" dkey) as Hparts.
  induction (Py.split "-" dkey) as [|p ps IH].
  - exists []. done.
  - destruct IH as (parts & Hps & Hrec).
    { intros part Hin. apply Hparts. by right. }
    assert (Hp : Py.contains "-" p = false) by (apply Hparts; left).
    destruct (translate_plain_single p) as [k Hk].
    exists ([k] :: parts). cbn [mapR]. rewrite Hk, Hps. split; [done|].
    rewrite (translate_key_rec_plain fuel p Hp), Hk. cbn [bindR].
    change (Py.getitem [k] 0) with (Ok k). cbn [bindR].
    by rewrite Hrec.
Qed.

Lemma mapR_ext {A B : Type} (f g : A -> Res B) (l : list A) :
  (forall x, x ∈ l -> f x = g x) -> mapR f l = mapR g l.
Proof.
  induction l as [|x l IH]; simpl; intros H; [done|].
  rewrite (H x) by left. rewrite IH; [done|].
  intros y Hy. apply H. by right.
Qed.

Lemma translate_key_no_dash (dkey : string) :
  Py.contains "-" dkey = false ->
  translate_key darwin KEYBOARD_KEYS dkey = translate_plain darwin KEYBOARD_KEYS dkey.
Proof. apply translate_key_rec_plain. Qed.

(** [translate_key] always returns, and never the empty tuple. *)
Lemma translate_key_total (dkey : string) :
  exists keys : list pykey, translate_key darwin KEYBOARD_KEYS dkey = Ok keys.
Proof.
  destruct (Py.contains "-" dkey) eqn:H.
  - unfold translate_key.
    pose proof (contains_length _ _ H) as Hlen.
    destruct (String.length dkey) as [|n]; [lia|].
    destruct (translate_key_rec_dash n dkey H) as (parts & _ & ->). eauto.
  - rewrite (translate_key_no_dash _ H).
    destruct (translate_plain_single dkey) as [k ->]. eauto.
Qed.

End ResolverFacts.

(** C8. For every key [dkey] that contains ['-'], [translate_key dkey]
    returns, each ['-']-separated part is translated by [translate_key] on
    its own, and the result is the concatenation of the translations of the
    parts, in order. *)
Theorem translate_key_distributes_over_dash
    (darwin : bool) (KEYBOARD_KEYS : list string) (dkey : string) :
  Py.contains "-" dkey = true ->
  exists parts : list (list pykey),
    mapR (translate_key darwin KEYBOARD_KEYS) (Py.split "-" dkey) = Ok parts /\
    translate_key darwin KEYBOARD_KEYS dkey = Ok (concat parts).
Proof.
  intros H. unfold translate_key at 2.
  pose proof (contains_length _ _ H) as Hlen.
  destruct (String.length dkey) as [|n]; [lia|].
  destruct (translate_key_rec_dash darwin KEYBOARD_KEYS n dkey H)
    as (parts & Hparts & Hrec).
  exists parts. split; [|done].
  rewrite <- Hparts. apply mapR_ext. intros part Hin.
  apply translate_key_no_dash. by eapply split_parts_no_sep.
Qed.

Lemma translate_key_distributes_over_dash_witness :
  Py.contains "-" "CTRL-ESC" = true /\
  exists parts : list (list pykey),
    mapR (translate_key false pyautogui_KEYBOARD_KEYS) (Py.split "-" "CTRL-ESC")
      = Ok parts /\
    translate_key false pyautogui_KEYBOARD_KEYS "CTRL-ESC" = Ok (concat parts).
Proof.
  split; [reflexivity|].
  apply (translate_key_distributes_over_dash false pyautogui_KEYBOARD_KEYS "CTRL-ESC").
  reflexivity.
Defined.

(** ** The translator *)

Lemma bindR_Ok {A B : Type} (m : Res A) (f : A -> Res B) (b : B) :
  bindR m f = Ok b -> exists a, m = Ok a /\ f a = Ok b.
Proof. destruct m; simpl; [eauto|done|done]. Qed.

Lemma existsb_is_None (keys : list pykey) :
  existsb is_None keys = false <-> None ∉ keys.
Proof.
  induction keys as [|k keys IH]; simpl.
  - split; [intros _ H; by apply elem_of_nil in H|done].
  - rewrite orb_false_iff, IH, not_elem_of_cons.
    destruct k; simpl; intuition congruence.
Qed.

Section TranslatorFacts.

Variable darwin : bool.
Variable KEYBOARD_KEYS : list string.

(** An alias translates to the keys of its target. *)
Lemma translate_key_alias (d t : string) :
  Py.dict_get ALIAS d = Some t ->
  translate_key darwin KEYBOARD_KEYS t = translate_key darwin KEYBOARD_KEYS d.
Proof.
  unfold ALIAS. cbn [Py.dict_get]. intros H.
  repeat match type of H with
         | (if String.eqb ?k d then _ else _) = _ =>
             destruct (String.eqb_spec k d) as [<-|_];
             [injection H as <-; reflexivity|]
         end.
  done.
Qed.

Lemma is_valid_alias_get (d : string) :
  is_valid_alias d = false -> Py.dict_get ALIAS d = None.
Proof.
  unfold is_valid_alias. generalize ALIAS. intros l.
  induction l as [|[k v] l IH]; simpl; [done|].
  intros H. apply orb_false_elim in H as [H1 H2].
  rewrite String.eqb_sym, H1. by apply IH.
Qed.

(** What the branch for key presses computes. *)
Lemma _to_python_keys (self_script : option ScriptDict) (self_lineno : Z)
    (commands : list addr) (dline : string) (skip : bool) (keys : list pykey) :
  _to_python darwin KEYBOARD_KEYS self_script self_lineno commands dline
  = Ok (skip, Fn_hotkey keys) ->
  skip = false /\ existsb is_None keys = false /\
  exists d0 t parts,
    Py.split1 " " (Py.strip dline) = d0 :: t /\
    mapR (translate_key darwin KEYBOARD_KEYS) (d0 :: t) = Ok parts /\
    keys = concat parts.
Proof.
  unfold _to_python. intros H.
  destruct (Py.split1 " " (Py.strip dline)) as [|d0 t] eqn:Hsplit; [done|].
  change (Py.getitem (d0 :: t) 0) with (Ok d0) in H. cbn [bindR] in H.
  apply bindR_Ok in H as (valid & Hvalid & H).
  destruct valid; cbn [negb] in H; [|done].
  apply bindR_Ok in H as (d0' & Hres & H).
  repeat match type of H with
         | (if bool_decide ?P then _ else _) = _ =>
             destruct (bool_decide P);
             [repeat (apply bindR_Ok in H as (? & _ & H)); done|]
         end.
  apply bindR_Ok in H as (parts & Hparts & H).
  destruct (existsb is_None (concat parts)) eqn:Hnone; [done|].
  injection H as <- <-. do 2 (split; [done|]).
  exists d0, t, parts. split; [done|]. split; [|done].
  revert Hparts. cbn [mapR fmap list_fmap].
  assert (Hd0 : translate_item darwin KEYBOARD_KEYS d0'
                = translate_key darwin KEYBOARD_KEYS d0).
  { destruct (is_valid_alias d0) eqn:Ha.
    - unfold get_alias_target in Hres. rewrite Ha in Hres. cbn [negb] in Hres.
      destruct (dict_get_keys ALIAS d0 Ha) as [tg Htg]. rewrite Htg in Hres.
      injection Hres as <-.
      cbn [translate_item]. by apply translate_key_alias.
    - by injection Hres as <-. }
  rewrite Hd0. intros <-. f_equal.
  clear. induction t as [|x t IH]; [done|]. cbn. by rewrite IH.
Qed.

End TranslatorFacts.

(** Whenever [_to_python] returns a key-press action, no entry of the key
    sequence bound to it is [None]: formatting the keys for the debug
    message raises before. *)
Lemma hotkey_keys_resolved (darwin : bool) (KEYBOARD_KEYS : list string)
    (self_script : option ScriptDict) (self_lineno : Z) (commands : list addr)
    (dline : string) (skip : bool) (keys : list pykey) :
  _to_python darwin KEYBOARD_KEYS self_script self_lineno commands dline
  = Ok (skip, Fn_hotkey keys) ->
  None ∉ keys.
Proof.
  intros H. apply _to_python_keys in H as (_ & H & _).
  by apply existsb_is_None.
Qed.

(** C2. The validity check of [_to_python] looks at the first token only,
    and the line is cut at its first space only. The first token of
    ["GUI foo"] passes the check and is no statement verb, yet the token
    ["foo"] translates to [None]; and every token of ["CTRL ALT DELETE"]
    resolves, yet the remainder ["ALT DELETE"] is translated as one key, to
    [None]. In both cases the key sequence computed holds [None], and the
    constructor ends in the TypeError raised by formatting it. *)
Theorem validity_check_first_token_only :
  Py.split1 " " (Py.strip "GUI foo") = ["GUI"; "foo"] /\
  is_valid_cmd false pyautogui_KEYBOARD_KEYS "GUI" = Ok true /\
  Py.str_in "GUI" COMMANDS = false /\
  mapR (translate_key false pyautogui_KEYBOARD_KEYS) ["GUI"; "foo"]
  = Ok [[Some "winleft"]; [None]] /\
  _to_python false pyautogui_KEYBOARD_KEYS (Some script_iface) 0 [] "GUI foo"
  = Raise TypeError /\
  Py.split1 " " (Py.strip "CTRL ALT DELETE") = ["CTRL"; "ALT DELETE"] /\
  is_valid_cmd false pyautogui_KEYBOARD_KEYS "CTRL" = Ok true /\
  mapR (translate_key false pyautogui_KEYBOARD_KEYS) ["CTRL"; "ALT"; "DELETE"]
  = Ok [[Some "ctrl"]; [Some "alt"]; [Some "delete"]] /\
  mapR (translate_key false pyautogui_KEYBOARD_KEYS) ["CTRL"; "ALT DELETE"]
  = Ok [[Some "ctrl"]; [None]] /\
  _to_python false pyautogui_KEYBOARD_KEYS (Some script_iface) 0 []
    "CTRL ALT DELETE" = Raise TypeError.
Proof. repeat split; reflexivity. Qed.

Section SingleToken.

Variable darwin : bool.
Variable KEYBOARD_KEYS : list string.

Lemma is_valid_cmd_total (dcmd : string) :
  exists b : bool, is_valid_cmd darwin KEYBOARD_KEYS dcmd = Ok b.
Proof.
  unfold is_valid_cmd.
  destruct (translate_key_total darwin KEYBOARD_KEYS dcmd) as [keys ->].
  cbn [bindR]. destruct (existsb is_None keys); eauto.
Qed.

Lemma not_in_COMMANDS (t v : string) :
  Py.str_in t COMMANDS = false -> v ∈ COMMANDS -> Some t <> Some v.
Proof.
  intros Hn Hv [= ->]. revert Hn Hv. unfold Py.str_in. generalize COMMANDS.
  intros l Hn Hv. induction Hv as [v l|v x l _ IH]; simpl in Hn.
  - by rewrite String.eqb_refl in Hn.
  - apply IH. by apply orb_false_elim in Hn as [_ ?].
Qed.

(** A line that is one of the integer statements alone is refused. *)
Lemma _to_python_integer_verb_alone (self_script : option ScriptDict)
    (self_lineno : Z) (commands : list addr) (dline v : string) :
  Py.split1 " " (Py.strip dline) = [Py.strip dline] ->
  resolved (Py.strip dline) = Ok (Some v) ->
  v ∈ ["DELAY"; "DEFAULT_DELAY"; "REPEAT"] ->
  exists e, _to_python darwin KEYBOARD_KEYS self_script self_lineno commands dline
            = Raise e.
Proof.
  intros Hsplit Hres Hv. unfold _to_python. rewrite Hsplit.
  change (Py.getitem [Py.strip dline] 0) with (Ok (Py.strip dline)).
  cbn [bindR].
  destruct (is_valid_cmd_total (Py.strip dline)) as [b ->]. cbn [bindR].
  destruct b; cbn [negb]; [|eauto].
  unfold resolved in Hres. rewrite Hres. cbn [bindR].
  change (Py.getitem [Py.strip dline] 1) with (@Raise string IndexError).
  cbn [bindR].
  repeat (apply elem_of_cons in Hv as [->|Hv];
          [repeat (rewrite bool_decide_eq_false_2 by done);
           rewrite bool_decide_eq_true_2 by done; eauto|]).
  by apply elem_of_nil in Hv.
Qed.

(** A line that is one key token is a key press of that token. *)
Lemma _to_python_key_alone (self_script : option ScriptDict)
    (self_lineno : Z) (commands : list addr) (dline t : string)
    (keys : list pykey) :
  Py.split1 " " (Py.strip dline) = [Py.strip dline] ->
  resolved (Py.strip dline) = Ok (Some t) ->
  Py.str_in t COMMANDS = false ->
  translate_key darwin KEYBOARD_KEYS (Py.strip dline) = Ok keys ->
  None ∉ keys ->
  _to_python darwin KEYBOARD_KEYS self_script self_lineno commands dline
  = Ok (false, Fn_hotkey keys).
Proof.
  intros Hsplit Hres Ht Hkeys Hnone. unfold _to_python. rewrite Hsplit.
  change (Py.getitem [Py.strip dline] 0) with (Ok (Py.strip dline)).
  cbn [bindR].
  apply existsb_is_None in Hnone.
  unfold is_valid_cmd. rewrite Hkeys. cbn [bindR]. rewrite Hnone. cbn [negb].
  assert (Htk : translate_key darwin KEYBOARD_KEYS t = Ok keys).
  { rewrite <- Hkeys. unfold resolved, get_alias_target in Hres.
    destruct (is_valid_alias (Py.strip dline)) eqn:Ha.
    - cbn [negb] in Hres. injection Hres as Hres.
      by apply translate_key_alias.
    - by injection Hres as <-. }
  unfold resolved in Hres. rewrite Hres. cbn [bindR].
  repeat (rewrite bool_decide_eq_false_2
            by (apply (not_in_COMMANDS _ _ Ht); unfold COMMANDS;
                repeat first [by left | right])).
  cbn [tail fmap list_fmap mapR translate_item bindR]. rewrite Htk.
  cbn [bindR concat]. rewrite app_nil_r, Hnone. done.
Qed.

End SingleToken.

(** C7. A line that is a statement verb and nothing else is not built
    into a command with an empty argument: its split yields the verb alone,
    there is no rest, and reading [dline[1]] raises IndexError. This holds
    for every accepted line without a space whose token is, or is an alias
    of, REM, DELAY, DEFAULT_DELAY, STRING or REPEAT, whatever the script and
    the line number. *)
Theorem statement_verb_alone_raises (darwin : bool)
    (KEYBOARD_KEYS : list string) (self_script : option ScriptDict)
    (self_lineno : Z) (commands : list addr) (dline v : string) :
  Py.contains " " (Py.strip dline) = false ->
  is_valid_cmd darwin KEYBOARD_KEYS (Py.strip dline) = Ok true ->
  resolved (Py.strip dline) = Ok (Some v) ->
  v ∈ COMMANDS ->
  Py.split1 " " (Py.strip dline) = [Py.strip dline] /\
  _to_python darwin KEYBOARD_KEYS self_script self_lineno commands dline
  = Raise IndexError.
Proof.
  intros H Hvalid Hres Hv. pose proof (split1_no_sep _ _ H) as Hsplit.
  split; [done|]. unfold _to_python. rewrite Hsplit.
  change (Py.getitem [Py.strip dline] 0) with (Ok (Py.strip dline)).
  cbn [bindR]. rewrite Hvalid. cbn [bindR negb].
  unfold resolved in Hres. rewrite Hres. cbn [bindR].
  change (Py.getitem [Py.strip dline] 1) with (@Raise string IndexError).
  cbn [bindR]. unfold COMMANDS in Hv.
  repeat (apply elem_of_cons in Hv as [->|Hv];
          [repeat (rewrite bool_decide_eq_false_2 by done);
           by rewrite bool_decide_eq_true_2 by done|]).
  by apply elem_of_nil in Hv.
Qed.

Lemma statement_verb_alone_raises_witness :
  Py.contains " " (Py.strip "REM") = false /\
  is_valid_cmd false pyautogui_KEYBOARD_KEYS (Py.strip "REM") = Ok true /\
  Py.split1 " " (Py.strip "REM") = ["REM"] /\
  _to_python false pyautogui_KEYBOARD_KEYS (Some script_iface) 0 [] "REM"
  = Raise IndexError.
Proof.
  split; [reflexivity|]. split; [reflexivity|].
  apply (statement_verb_alone_raises false pyautogui_KEYBOARD_KEYS
           (Some script_iface) 0 [] "REM" "REM");
    [reflexivity|reflexivity|reflexivity|].
  unfold COMMANDS. apply elem_of_cons. by left.
Defined.

(** The same for a text statement and an integer statement; a line that is
    one key token, for comparison, is built into the key press. *)
Lemma verb_alone_examples :
  _to_python false pyautogui_KEYBOARD_KEYS (Some script_iface) 0 [] "STRING"
  = Raise IndexError /\
  _to_python false pyautogui_KEYBOARD_KEYS (Some script_iface) 0 [] "DELAY"
  = Raise IndexError /\
  _to_python false pyautogui_KEYBOARD_KEYS (Some script_iface) 0 [] "ESC"
  = Ok (false, Fn_hotkey [Some "escape"]).
Proof. repeat split; reflexivity. Qed.

(** ** Reasoning in the monad *)

Lemma bindM_inv {A B : Type} (m : M A) (f : A -> M B) (w w' : World) (r : Res B) :
  bindM m f w = (w', r) ->
  (exists w1 a, m w = (w1, Ok a) /\ f a w1 = (w', r)) \/
  (exists e, m w = (w', Raise e) /\ r = Raise e) \/
  (m w = (w', Undef) /\ r = Undef).
Proof.
  unfold bindM. destruct (m w) as [w1 [a|e|]]; intros H.
  - left. eauto.
  - right. left. injection H as <- <-. eauto.
  - right. right. by injection H as <- <-.
Qed.

Lemma bindM_Ok {A B : Type} (m : M A) (f : A -> M B) (w w' : World) (b : B) :
  bindM m f w = (w', Ok b) ->
  exists w1 a, m w = (w1, Ok a) /\ f a w1 = (w', Ok b).
Proof.
  intros H. apply bindM_inv in H as [H|[(e & _ & H)|[_ H]]]; [done|done|done].
Qed.

Section Inv.

Variable good : World -> Prop.
Variable R : World -> World -> Prop.
Hypothesis R_refl : forall w, R w w.
Hypothesis R_trans : forall w1 w2 w3, R w1 w2 -> R w2 w3 -> R w1 w3.

Lemma inv_pure {A : Type} (r : Res A) : inv good R (lift r).
Proof. intros w w' r' [= <- <-] Hw. auto. Qed.

Lemma inv_ret {A : Type} (a : A) : inv good R (ret a).
Proof. apply (inv_pure (Ok a)). Qed.

Lemma inv_raise {A : Type} (e : Exn) : inv good R (@raise A e).
Proof. apply (inv_pure (Raise e)). Qed.

Lemma inv_undef {A : Type} : inv good R (@undef A).
Proof. apply (inv_pure Undef). Qed.

Lemma inv_bind {A B : Type} (m : M A) (f : A -> M B) :
  inv good R m -> (forall a, inv good R (f a)) -> inv good R (bindM m f).
Proof.
  intros Hm Hf w w' r H Hw.
  apply bindM_inv in H as [(w1 & a & H1 & H2)|[(e & H1 & _)|[H1 _]]].
  - destruct (Hm _ _ _ H1 Hw) as [HR1 Hw1].
    destruct (Hf a _ _ _ H2 Hw1) as [HR2 Hw2]. eauto.
  - by eapply Hm.
  - by eapply Hm.
Qed.

Lemma inv_for_range (n : nat) (body : M unit) :
  inv good R body -> inv good R (for_range n body).
Proof.
  intros Hb. induction n as [|n IH]; simpl.
  - apply inv_ret.
  - apply inv_bind; auto.
Qed.

Lemma inv_for_each {A : Type} (l : list A) (body : A -> M unit) :
  (forall x, inv good R (body x)) -> inv good R (for_each l body).
Proof.
  intros Hb. induction l as [|x l IH]; simpl.
  - apply inv_ret.
  - apply inv_bind; auto.
Qed.

End Inv.

Lemma inv_mono (good : World -> Prop) (R R' : World -> World -> Prop)
    {A : Type} (m : M A) :
  (forall w w', R w w' -> R' w w') -> inv good R m -> inv good R' m.
Proof. intros HR Hm w w' r H Hw. destruct (Hm _ _ _ H Hw). auto. Qed.

(** ** Well-formed worlds and what an execution may change *)

Lemma with_skip_delay_same (c : DuckyCommand.t) :
  with_skip_delay (DuckyCommand._skip_delay c) c = c.
Proof. by destruct c. Qed.

Lemma with_skip_delay_twice (v v' : bool) (c : DuckyCommand.t) :
  with_skip_delay v (with_skip_delay v' c) = with_skip_delay v c.
Proof. done. Qed.

Lemma marker_lt_mono (a a' : addr) (ev : Event) :
  (a <= a')%nat -> marker_lt a ev -> marker_lt a' ev.
Proof. destruct ev; simpl; lia. Qed.

Lemma frame_refl (ah ae : addr) (w : World) : frame ah ae w w.
Proof.
  split; try done.
  - intros b c Hb. exists (DuckyCommand._skip_delay c).
    by rewrite with_skip_delay_same.
  - exists []. by rewrite app_nil_r.
Qed.

Lemma frame_trans (ah ae : addr) (w1 w2 w3 : World) :
  frame ah ae w1 w2 -> frame ah ae w2 w3 -> frame ah ae w1 w3.
Proof.
  intros [H1 L1 C1 I1 (tr1 & E1 & F1)] [H2 L2 C2 I2 (tr2 & E2 & F2)].
  split; try congruence.
  - intros b c Hb. destruct (H1 b c Hb) as (v1 & Hb1 & Hv1).
    destruct (H2 b _ Hb1) as (v2 & Hb2 & Hv2).
    exists v2. split; [done|]. intros Hle. rewrite (Hv2 Hle). simpl. auto.
  - exists (tr1 ++ tr2). rewrite E2, E1, app_assoc. split; [done|].
    by apply Forall_app.
Qed.

Lemma frame_mono (ah ae ah' ae' : addr) (w w' : World) :
  (ah <= ah')%nat -> (ae <= ae')%nat -> frame ah ae w w' -> frame ah' ae' w w'.
Proof.
  intros Hh He [H L C I (tr & E & F)]. split; try done.
  - intros b c Hb. destruct (H b c Hb) as (v & Hb' & Hv).
    exists v. split; [done|]. intros. apply Hv. lia.
  - exists tr. split; [done|].
    eapply Forall_impl; [exact F|]. intros ev. by apply marker_lt_mono.
Qed.

Lemma frame_lookup_inv (ah ae : addr) (w w' : World) (b : addr)
    (c' : DuckyCommand.t) :
  frame ah ae w w' -> heap w' !! b = Some c' ->
  exists c v, heap w !! b = Some c /\ c' = with_skip_delay v c.
Proof.
  intros [H L _ _ _] Hb.
  assert (Hlt : (b < length (heap w))%nat).
  { rewrite <- L. by eapply lookup_lt_Some. }
  apply lookup_lt_is_Some_2 in Hlt as [c Hc].
  destruct (H b c Hc) as (v & Hb' & _).
  exists c, v. split; [done|]. congruence.
Qed.

Lemma frame_wf (ah ae : addr) (w w' : World) :
  frame ah ae w w' -> wf_world w -> wf_world w'.
Proof.
  intros Hf [Ha Hc Hi Hcm]. pose proof Hf as [_ L C I _]. split.
  - intros a c' t n Hb Hp.
    destruct (frame_lookup_inv _ _ _ _ _ _ Hf Hb) as (c & v & Hb0 & ->).
    exact (Ha a c t n Hb0 Hp).
  - intros a c' Hb.
    destruct (frame_lookup_inv _ _ _ _ _ _ Hf Hb) as (c & v & Hb0 & ->).
    exact (Hc a c Hb0).
  - by rewrite I, L.
  - unfold commands_of. by rewrite C, I, L.
Qed.

(** To establish [inv] for a frame, the frame is enough. *)
Lemma inv_frame (ah ae : addr) {A : Type} (m : M A) :
  (forall w w' r, m w = (w', r) -> wf_world w -> frame ah ae w w') ->
  inv wf_world (frame ah ae) m.
Proof. intros H w w' r Hm Hw. split; [eauto|]. eapply frame_wf; eauto. Qed.

Lemma inv_frame_mono (ah ae ah' ae' : addr) {A : Type} (m : M A) :
  (ah <= ah')%nat -> (ae <= ae')%nat ->
  inv wf_world (frame ah ae) m -> inv wf_world (frame ah' ae') m.
Proof. intros Hh He. apply inv_mono. intros w w'. by apply frame_mono. Qed.

Lemma emit_frame (ah ae : addr) (ev : Event) :
  marker_lt ae ev -> inv wf_world (frame ah ae) (emit ev).
Proof.
  intros Hev. apply inv_frame. intros w w' r [= <- <-] _.
  split; simpl; try done.
  - intros b c Hb. exists (DuckyCommand._skip_delay c).
    by rewrite with_skip_delay_same.
  - exists [ev]. split; [done|]. by apply Forall_singleton.
Qed.

Lemma _cmd_delay_frame (ah ae : addr) (ms : Z) :
  inv wf_world (frame ah ae) (_cmd_delay ms).
Proof.
  unfold _cmd_delay. destruct (ms <? 0).
  - apply inv_raise. apply frame_refl.
  - by apply emit_frame.
Qed.

Lemma _set_default_delay_frame (ah ae : addr) (new_delay : Z) :
  inv wf_world (frame ah ae) (_set_default_delay new_delay).
Proof.
  apply inv_frame. intros w w' r [= <- <-] _.
  split; simpl; try done.
  - intros b c Hb. exists (DuckyCommand._skip_delay c).
    by rewrite with_skip_delay_same.
  - exists []. by rewrite app_nil_r.
Qed.

Lemma default_delay_frame (ah ae : addr) (self : DuckyCommand.t) :
  inv wf_world (frame ah ae) (default_delay self).
Proof.
  apply inv_frame. intros w w' r H _.
  assert (w' = w) as ->; [|apply frame_refl].
  unfold default_delay, _get_default_delay, raise, ret in H.
  repeat case_match; by injection H as <- _.
Qed.

Lemma set_skip_delay_frame (ae : addr) (dcmd : Target) (v : bool) :
  inv wf_world
    (frame (match dcmd with TCmd t => S t | TRemFunc => 0%nat end) ae)
    (set_skip_delay dcmd v).
Proof.
  apply inv_frame. intros w w' r H _. destruct dcmd as [t|]; simpl in H.
  - unfold bindM, get_cmd in H. destruct (heap w !! t) as [c|] eqn:Ht.
    + injection H as <- <-. split; simpl; try done.
      * intros b c' Hb. destruct (decide (b = t)) as [->|Hne].
        -- exists v. rewrite list_lookup_insert_eq by by eapply lookup_lt_Some.
           split; [congruence|lia].
        -- exists (DuckyCommand._skip_delay c').
           rewrite list_lookup_insert_ne by done.
           by rewrite with_skip_delay_same.
      * by rewrite length_insert.
      * exists []. by rewrite app_nil_r.
    + injection H as <- <-. apply frame_refl.
  - injection H as <- <-. split; simpl; try done.
    + intros b c Hb. exists (DuckyCommand._skip_delay c).
      by rewrite with_skip_delay_same.
    + exists []. by rewrite app_nil_r.
Qed.

Ltac frame_bind := apply inv_bind; [apply frame_trans| |].
Ltac frame_ret := apply inv_ret; apply frame_refl.
Ltac frame_raise := apply inv_raise; apply frame_refl.

(** The action of the command at [a] touches and marks commands below [a]
    only, as soon as the executions it starts do. *)
Lemma call_frame (execute : addr -> M unit) (a : addr) (f : PyFunc) :
  (forall t, inv wf_world (frame t (S t)) (execute t)) ->
  (forall t n, f = Fn_cmd_repeat (TCmd t) n -> (t < a)%nat) ->
  inv wf_world (frame a a) (call execute f).
Proof.
  intros IH Hacy.
  destruct f as [comment|ms|new_delay|message|keys|dcmd n]; simpl.
  - frame_ret.
  - apply _cmd_delay_frame.
  - apply _set_default_delay_frame.
  - by apply emit_frame.
  - by apply emit_frame.
  - assert (Hset : forall v, inv wf_world (frame a a) (set_skip_delay dcmd v)).
    { intros v. eapply inv_frame_mono; [| |apply (set_skip_delay_frame a)];
        [|lia]. destruct dcmd as [t|]; [|lia]. specialize (Hacy t n eq_refl). lia. }
    unfold _cmd_repeat. frame_bind; [apply Hset|intros _].
    frame_bind; [|intros _; apply Hset].
    apply inv_for_range; [apply frame_refl|apply frame_trans|].
    destruct dcmd as [t|]; simpl; [|frame_raise].
    specialize (Hacy t n eq_refl).
    eapply inv_frame_mono; [| |apply IH]; lia.
Qed.

Lemma execute_unfold (fuel : nat) (a : addr) (w : World) :
  execute (S fuel) a w
  = match heap w !! a with
    | Some self => execute_body (execute fuel) a self w
    | None => (w, Undef)
    end.
Proof.
  cbn [execute]. unfold bindM at 1, get_cmd. by destruct (heap w !! a).
Qed.

Lemma execute_body_frame (execute : addr -> M unit) (a : addr)
    (self : DuckyCommand.t) :
  (forall t, inv wf_world (frame t (S t)) (execute t)) ->
  (forall t n, DuckyCommand.python_func self = Fn_cmd_repeat (TCmd t) n ->
               (t < a)%nat) ->
  inv wf_world (frame a (S a)) (execute_body execute a self).
Proof.
  intros IH Hacy.
  unfold execute_body, default_delay_step. frame_bind; [|intros _].
  - destruct (negb _); [|frame_ret].
    frame_bind; [apply default_delay_frame|intros d].
    frame_bind; [|intros _; apply _cmd_delay_frame].
    apply emit_frame. simpl. lia.
  - frame_bind; [|intros _].
    + apply emit_frame. simpl. lia.
    + eapply inv_frame_mono; [| |by apply call_frame]; lia.
Qed.

Lemma execute_frame (fuel : nat) (a : addr) :
  inv wf_world (frame a (S a)) (execute fuel a).
Proof.
  revert a. induction fuel as [|fuel IH]; intros a.
  - apply inv_undef. apply frame_refl.
  - intros w w' r H Hw. rewrite execute_unfold in H.
    destruct (heap w !! a) as [self|] eqn:Ha.
    + eapply execute_body_frame; eauto.
      intros t n. by eapply wf_acyclic.
    + injection H as <- <-. split; [apply frame_refl|done].
Qed.

(** ** Counting what a run does *)

Lemma count_app (p : Event -> bool) (tr1 tr2 : list Event) :
  count p (tr1 ++ tr2) = (count p tr1 + count p tr2)%nat.
Proof. induction tr1 as [|ev tr1 IH]; simpl; [done|]. rewrite IH. lia. Qed.

Lemma count_marker_lt (a : addr) (tr : list Event) :
  Forall (marker_lt a) tr ->
  count (is_call a) tr = 0%nat /\ count (is_default_delay_of a) tr = 0%nat.
Proof.
  induction 1 as [|ev tr Hev _ [IH1 IH2]]; simpl; [done|].
  rewrite IH1, IH2.
  destruct ev as [b d|b| | |]; simpl in *; try done;
    destruct (Nat.eqb_spec b a); (done || lia).
Qed.

Lemma default_delay_checked (w : World) (c : DuckyCommand.t) :
  check_script (DuckyCommand._script c) = Ok tt ->
  default_delay c w = (w, Ok (effective_default_delay w c)).
Proof.
  unfold check_script, default_delay, effective_default_delay.
  destruct (truthy (DuckyCommand._script c)) eqn:Ht; [|done].
  destruct (DuckyCommand._script c) as [d|]; [|done].
  destruct (has_get_default_delay d); [done|]. simpl. done.
Qed.

Lemma add_events_app (w : World) (tr1 tr2 : list Event) :
  add_events (add_events w tr1) tr2 = add_events w (tr1 ++ tr2).
Proof. unfold add_events. simpl. by rewrite app_assoc. Qed.

Lemma default_delay_step_run (a : addr) (self : DuckyCommand.t) (w : World) :
  check_script (DuckyCommand._script self) = Ok tt ->
  default_delay_step a self w
  = if DuckyCommand._skip_delay self then (w, Ok tt)
    else
      let d := effective_default_delay w self in
      if d <? 0 then (add_events w [EvDefaultDelay a d], Raise ValueError)
      else (add_events w [EvDefaultDelay a d; EvSleep d], Ok tt).
Proof.
  intros Hc. unfold default_delay_step.
  destruct (DuckyCommand._skip_delay self); [done|]. cbn [negb].
  unfold bindM at 1. rewrite (default_delay_checked _ _ Hc).
  unfold bindM, emit, _cmd_delay. cbn zeta.
  destruct (effective_default_delay w self <? 0); [done|].
  unfold emit, add_events. simpl. by rewrite <- app_assoc.
Qed.

Lemma execute_body_run (execute : addr -> M unit) (a : addr)
    (self : DuckyCommand.t) (w : World) :
  execute_body execute a self w
  = match default_delay_step a self w with
    | (w1, Ok _) =>
        call execute (DuckyCommand.python_func self) (add_events w1 [EvCall a])
    | (w1, Raise e) => (w1, Raise e)
    | (w1, Undef) => (w1, Undef)
    end.
Proof.
  unfold execute_body. unfold bindM at 1.
  destruct (default_delay_step a self w) as [w1 [[]|e|]]; done.
Qed.

(** The loop of [_cmd_repeat] over a command whose [_skip_delay] is set:
    each round calls its function once and never waits its default delay. *)
Lemma repeat_loop_count (fuel : nat) (s : addr) (n : nat) (w w' : World) :
  wf_world w ->
  (exists c, heap w !! s = Some c /\ DuckyCommand._skip_delay c = true) ->
  for_range n (execute fuel s) w = (w', Ok tt) ->
  wf_world w' /\
  (exists c, heap w' !! s = Some c /\ DuckyCommand._skip_delay c = true) /\
  exists tr, events w' = events w ++ tr /\
             count (is_call s) tr = n /\
             count (is_default_delay_of s) tr = 0%nat.
Proof.
  revert w. induction n as [|n IH]; intros w Hw Hs H.
  - injection H as <-. do 2 (split; [done|]). exists []. by rewrite app_nil_r.
  - cbn [for_range] in H. apply bindM_Ok in H as (w1 & [] & H1 & H2).
    destruct fuel as [|fuel]; [done|].
    destruct Hs as (c & Hc & Hskip).
    rewrite execute_unfold, Hc, execute_body_run in H1.
    rewrite default_delay_step_run in H1 by by eapply wf_checked.
    rewrite Hskip in H1.
    assert (Hwe : wf_world (add_events w [EvCall s])) by by destruct Hw.
    destruct (call_frame (execute fuel) s (DuckyCommand.python_func c)
                (execute_frame fuel) (fun t n => wf_acyclic w Hw s c t n Hc)
                _ _ _ H1 Hwe) as [[Hh _ _ _ (tr1 & He & Hm)] Hw1].
    destruct (Hh s c Hc) as (v & Hc1 & Hv). rewrite (Hv (le_n s)) in Hc1.
    destruct (IH w1 Hw1) as (Hw' & Hs' & tr & He' & Hn1 & Hn2); [eauto|done|].
    do 2 (split; [done|]).
    exists (EvCall s :: tr1 ++ tr). simpl in He. split.
    { rewrite He', He, <- !app_assoc. done. }
    destruct (count_marker_lt s tr1 Hm) as [Hz1 Hz2].
    cbn [count is_call is_default_delay_of]. rewrite Nat.eqb_refl, !count_app.
    lia.
Qed.

Lemma set_skip_delay_Ok (s : addr) (v : bool) (w w' : World) :
  set_skip_delay (TCmd s) v w = (w', Ok tt) ->
  exists c, heap w !! s = Some c /\
            w' = mkWorld (<[s := with_skip_delay v c]> (heap w)) (script_obj w)
                   (rem_skip_delay w) (events w).
Proof.
  cbn [set_skip_delay]. unfold bindM, get_cmd, set_heap.
  destruct (heap w !! s) as [c|]; [|done]. intros [= <-]. eauto.
Qed.

Lemma set_skip_delay_lookup (s : addr) (v : bool) (w w' : World) :
  set_skip_delay (TCmd s) v w = (w', Ok tt) ->
  events w' = events w /\
  exists c, heap w' !! s = Some c /\ DuckyCommand._skip_delay c = v.
Proof.
  intros (c & Hc & ->)%set_skip_delay_Ok. split; [done|].
  exists (with_skip_delay v c). split; [|done]. simpl.
  apply list_lookup_insert_eq. by eapply lookup_lt_Some.
Qed.

(** What [_cmd_repeat] on a command does when it returns. *)
Lemma _cmd_repeat_count (fuel : nat) (s : addr) (n : Z) (w w' : World) :
  wf_world w ->
  _cmd_repeat (execute fuel) (TCmd s) n w = (w', Ok tt) ->
  (exists c, heap w' !! s = Some c /\ DuckyCommand._skip_delay c = false) /\
  exists tr, events w' = events w ++ tr /\
             count (is_call s) tr = Z.to_nat n /\
             count (is_default_delay_of s) tr = 0%nat.
Proof.
  intros Hw H. unfold _cmd_repeat in H.
  apply bindM_Ok in H as (wb & [] & Hset & H).
  apply bindM_Ok in H as (wc & [] & Hloop & Hreset).
  destruct (set_skip_delay_frame 0 (TCmd s) true _ _ _ Hset Hw) as [_ Hwb].
  apply set_skip_delay_lookup in Hset as [Heb Hsb].
  cbn [call_execute] in Hloop.
  destruct (repeat_loop_count fuel s _ wb wc Hwb Hsb Hloop)
    as (_ & _ & tr & Hec & Hn1 & Hn2).
  apply set_skip_delay_lookup in Hreset as [He' Hs'].
  split; [done|]. exists tr. by rewrite He', Hec, Heb.
Qed.

(** ** Construction and loading keep worlds well formed *)

Lemma getitem_elem {A : Type} (l : list A) (i : Z) (x : A) :
  Py.getitem l i = Ok x -> x ∈ l.
Proof.
  unfold Py.getitem. destruct (_ && _); [|done].
  destruct (l !! _) eqn:Hl; [|done]. intros [= <-].
  by eapply list_elem_of_lookup_2.
Qed.

(** The command a repeat refers to is taken from the list of the script. *)
Lemma _to_python_target (darwin : bool) (KEYBOARD_KEYS : list string)
    (self_script : option ScriptDict) (self_lineno : Z) (commands : list addr)
    (dline : string) (skip : bool) (t : addr) (n : Z) :
  _to_python darwin KEYBOARD_KEYS self_script self_lineno commands dline
  = Ok (skip, Fn_cmd_repeat (TCmd t) n) ->
  t ∈ commands.
Proof.
  unfold _to_python. intros H.
  apply bindR_Ok in H as (d0 & _ & H).
  apply bindR_Ok in H as (valid & _ & H).
  destruct (negb valid); [done|].
  apply bindR_Ok in H as (d0' & _ & H).
  repeat match type of H with
         | (if bool_decide ?P then _ else _) = _ =>
             destruct (bool_decide P);
             [try (repeat (apply bindR_Ok in H as (? & _ & H)); done)|]
         end.
  - apply bindR_Ok in H as (d1 & _ & H).
    apply bindR_Ok in H as (to_repeat & Hto & H).
    apply bindR_Ok in H as (n' & _ & H). injection H as _ -> _.
    apply bindR_Ok in Hto as ([] & _ & Hto).
    destruct (Py.getitem commands (self_lineno - 1)) as [a|e|] eqn:Hg.
    + injection Hto as <-. by eapply getitem_elem.
    + by destruct e.
    + done.
  - apply bindR_Ok in H as (parts & _ & H).
    by destruct (existsb is_None (concat parts)).
Qed.

(** The outcome of the constructor. *)
Lemma DuckyCommand_init_inv (darwin : bool) (KEYBOARD_KEYS : list string)
    (dline : string) (lineno default_delay : Z) (script : option ScriptDict)
    (w w' : World) (r : Res addr) :
  DuckyCommand_init darwin KEYBOARD_KEYS dline lineno default_delay script w
  = (w', r) ->
  match r with
  | Ok a =>
      a = length (heap w) /\
      exists skip f,
        check_script script = Ok tt /\
        _to_python darwin KEYBOARD_KEYS script lineno
          (DuckyScript.iface_commands (script_obj w)) dline = Ok (skip, f) /\
        w' = mkWorld
               (heap w ++ [DuckyCommand.mk skip default_delay script lineno dline f])
               (script_obj w) (rem_skip_delay w) (events w)
  | _ => w' = w
  end.
Proof.
  unfold DuckyCommand_init.
  destruct (check_script script) as [[]| |]; cbn [bindR];
    [|by intros [= <- <-]..].
  destruct (_to_python _ _ _ _ _ _) as [[skip f]| |];
    intros [= <- <-]; [|done..].
  split; [done|]. by exists skip, f.
Qed.

Lemma ext_refl (w : World) : ext w w.
Proof.
  intros b c Hb. exists (DuckyCommand._skip_delay c).
  by rewrite with_skip_delay_same.
Qed.

Lemma ext_heap (w w' : World) : heap w' = heap w -> ext w w'.
Proof.
  intros H b c Hb. exists (DuckyCommand._skip_delay c).
  by rewrite with_skip_delay_same, H.
Qed.

Lemma ext_trans (w1 w2 w3 : World) : ext w1 w2 -> ext w2 w3 -> ext w1 w3.
Proof.
  intros H1 H2 b c Hb. destruct (H1 b c Hb) as (v1 & Hb1).
  destruct (H2 b _ Hb1) as (v2 & Hb2). by exists v2.
Qed.


Ltac ext_bind := apply inv_bind; [apply ext_trans| |].

Lemma Forall_lt_mono (l : list addr) (n m : nat) :
  (n <= m)%nat -> Forall (fun a => (a < n)%nat) l -> Forall (fun a => (a < m)%nat) l.
Proof.
  intros Hle H. eapply Forall_impl; [exact H|]. intros a. simpl. lia.
Qed.

Section Loading.

Variable darwin : bool.
Variable KEYBOARD_KEYS : list string.

Lemma DuckyCommand_init_ext (dline : string) (lineno default_delay : Z)
    (script : option ScriptDict) :
  inv wf_world ext
    (DuckyCommand_init darwin KEYBOARD_KEYS dline lineno default_delay script).
Proof.
  intros w w' r H Hw. apply DuckyCommand_init_inv in H.
  destruct r as [a| |]; [|subst; split; [apply ext_refl|done]..].
  destruct H as (-> & skip & f & Hcheck & Hf & ->).
  destruct Hw as [Ha Hc Hi Hcm]. split.
  - intros b c Hb. exists (DuckyCommand._skip_delay c).
    rewrite with_skip_delay_same. simpl. by apply lookup_app_l_Some.
  - split; simpl.
    + intros a c t n [Hb|[Hlen Hb]]%lookup_app_Some Hp; [by eapply Ha|].
      destruct (a - length (heap w))%nat eqn:Hd; [|done].
      injection Hb as <-. simpl in Hp. subst f.
      apply _to_python_target in Hf.
      rewrite Forall_forall in Hi. specialize (Hi t Hf). lia.
    + intros a c [Hb|[Hlen Hb]]%lookup_app_Some; [by eapply Hc|].
      destruct (a - length (heap w))%nat; [|done]. by injection Hb as <-.
    + rewrite length_app. eapply Forall_lt_mono; [|done]. lia.
    + rewrite length_app. eapply Forall_lt_mono; [|done]. lia.
Qed.

Lemma commands_append_ext (dcmd : addr) :
  inv (fun w => wf_world w /\ (dcmd < length (heap w))%nat) ext
    (commands_append dcmd).
Proof.
  intros w w' r H [[Ha Hc Hi Hcm] Hlt]. unfold commands_append in H.
  unfold commands_of in Hcm.
  destruct (DuckyScript.commands (script_obj w)) eqn:Hcmd;
    injection H as <- <-; (split; [by apply ext_heap|]);
    (split; [split; try done|done]); simpl; unfold commands_of; simpl;
    try rewrite Hcmd; try done;
    apply Forall_app; (split; [done|]); by apply Forall_singleton.
Qed.

Lemma set_commands_ext (v : Commands) :
  (forall l, v = OwnList l \/ v = OwnTuple l -> l = []) ->
  v <> SharedList ->
  inv wf_world ext (set_commands v).
Proof.
  intros Hv Hns w w' r [= <- <-] [Ha Hc Hi Hcm]. split; [by apply ext_heap|].
  split; try done. unfold commands_of. simpl.
  destruct v as [|l|l]; [done|..]; by rewrite (Hv l) by auto.
Qed.

Lemma load_lines_ext (dfile : list string) (lineno : Z) :
  inv wf_world ext (load_lines darwin KEYBOARD_KEYS lineno dfile).
Proof.
  revert lineno. induction dfile as [|line rest IH]; intros lineno.
  - apply inv_ret. apply ext_refl.
  - cbn [load_lines]. ext_bind; [|intros _; apply IH].
    destruct (0 <? _); [|apply inv_ret; apply ext_refl].
    intros w w' r H Hw.
    apply bindM_inv in H as [(w1 & a & H1 & H2)|[(e & H1 & _)|[H1 _]]].
    + destruct (DuckyCommand_init_ext _ _ _ _ _ _ _ H1 Hw) as [He1 Hw1].
      apply DuckyCommand_init_inv in H1 as (-> & skip & f & _ & _ & ->).
      destruct (commands_append_ext _ _ _ _ H2) as [He2 Hw2].
      { split; [done|]. simpl. rewrite length_app. simpl. lia. }
      split; [by eapply ext_trans|]. by destruct Hw2.
    + by eapply DuckyCommand_init_ext.
    + by eapply DuckyCommand_init_ext.
Qed.

Lemma load_ext (dfile : list string) :
  inv wf_world ext (load darwin KEYBOARD_KEYS dfile).
Proof.
  unfold load. ext_bind; [|intros _; ext_bind].
  - intros w w' r H Hw. destruct (is_tuple (script_obj w)).
    + eapply set_commands_ext; [| |exact H|exact Hw]; [|done].
      by intros l [[= <-]|[=]].
    + injection H as <- <-. split; [apply ext_refl|done].
  - apply load_lines_ext.
  - intros _ w w' r [= <- <-] [Ha Hc Hi Hcm]. split; [by apply ext_heap|].
    split; try done.
Qed.



End Loading.

Lemma DuckyScript_init_wf (dpath : string) : wf_world (DuckyScript_init dpath).
Proof. split; simpl; try done. Qed.

(** ** What happens later *)










(** ** Loading *)

Lemma commands_append_list (dcmd : addr) (w : World) :
  is_tuple (script_obj w) = false ->
  exists w',
    commands_append dcmd w = (w', Ok tt) /\
    heap w' = heap w /\ events w' = events w /\
    DuckyScript._default_delay (script_obj w')
    = DuckyScript._default_delay (script_obj w) /\
    is_tuple (script_obj w') = false /\
    commands_of (script_obj w') = commands_of (script_obj w) ++ [dcmd].
Proof.
  unfold commands_append, is_tuple, commands_of.
  destruct (DuckyScript.commands (script_obj w)) eqn:Hc; [| |done];
    intros _; eexists; (split; [reflexivity|]); simpl; by rewrite ?Hc.
Qed.

Section LoadSpec.

Variable darwin : bool.
Variable KEYBOARD_KEYS : list string.

(** The loop of [load]: the objects it builds are appended to the store and
    their addresses to [self.commands]; when it raises, it stops in the very
    world in which the constructor refused the line. *)
Lemma load_lines_spec (dfile : list string) (lineno : Z) (w w' : World)
    (r : Res unit) :
  load_lines darwin KEYBOARD_KEYS lineno dfile w = (w', r) ->
  is_tuple (script_obj w) = false ->
  exists new,
    heap w' = heap w ++ new /\
    events w' = events w /\
    DuckyScript._default_delay (script_obj w')
    = DuckyScript._default_delay (script_obj w) /\
    is_tuple (script_obj w') = false /\
    commands_of (script_obj w')
    = commands_of (script_obj w) ++ seq (length (heap w)) (length new) /\
    match r with
    | Ok _ => DuckyCommand.raw_line <$> new = statements dfile
    | Raise e =>
        exists pre line post,
          dfile = pre ++ line :: post /\
          DuckyCommand.raw_line <$> new = statements pre /\
          DuckyCommand_init darwin KEYBOARD_KEYS (Py.strip line)
            (lineno + Z.of_nat (length pre)) 0 (Some script_iface) w'
          = (w', Raise e)
    | Undef => True
    end.
Proof.
  revert lineno w. induction dfile as [|line rest IH]; intros lineno w H Ht.
  - injection H as <- <-. exists []. rewrite !app_nil_r. done.
  - cbn [load_lines statements] in *.
    destruct (0 <? Z.of_nat (String.length (Py.strip line))) eqn:Hblank.
    + unfold bindM at 1 2 in H.
      destruct (DuckyCommand_init _ _ _ _ _ _ w) as [w1 r1] eqn:Hinit.
      pose proof Hinit as Hinv. apply DuckyCommand_init_inv in Hinv.
      destruct r1 as [a|e|].
      * destruct Hinv as (-> & skip & f & _ & _ & ->).
        match type of H with
        | context [commands_append ?a ?w1] =>
            destruct (commands_append_list a w1 Ht)
              as (w2 & Happ & Hh & He & Hd & Ht2 & Hc2);
            rewrite Happ in H
        end.
        destruct (IH _ _ H Ht2) as (new & Hh' & He' & Hd' & Ht' & Hc' & Hr).
        simpl in Hh, He, Hd, Hc2.
        eexists (_ :: new). rewrite Hh', He', Hd', Hc', Hh, He, Hd, Hc2.
        rewrite length_app, <- !app_assoc. simpl.
        replace (length (heap w) + 1)%nat with (S (length (heap w))) by lia.
        do 5 (split; [done|]).
        destruct r as [[]|e|]; [f_equal; exact Hr| |done].
        destruct Hr as (pre & line' & post & -> & Hnew & Hfail).
        exists (line :: pre), line', post. cbn [statements length]. rewrite Hblank.
        split; [done|]. split; [f_equal; exact Hnew|].
        rewrite <- Hfail. f_equal. lia.
      * subst w1. injection H as <- <-. exists []. rewrite !app_nil_r.
        do 5 (split; [done|]). exists [], line, rest.
        split; [done|]. split; [done|]. simpl. by rewrite Z.add_0_r.
      * subst w1. injection H as <- <-. exists []. rewrite !app_nil_r. done.
    + unfold bindM at 1, ret in H.
      destruct (IH _ _ H Ht) as (new & Hh' & He' & Hd' & Ht' & Hc' & Hr).
      exists new. do 5 (split; [done|]).
      destruct r as [[]|e|]; [done| |done].
      destruct Hr as (pre & line' & post & -> & Hnew & Hfail).
      exists (line :: pre), line', post. cbn [statements length]. rewrite Hblank.
      split; [done|]. split; [done|].
      rewrite <- Hfail. f_equal. lia.
Qed.

End LoadSpec.

(** What a [load] that raises leaves behind. *)
Lemma load_failure_keeps_partial
    (darwin : bool) (KEYBOARD_KEYS : list string) (dfile : list string)
    (w w' : World) (e : Exn) :
  load darwin KEYBOARD_KEYS dfile w = (w', Raise e) ->
  is_tuple (script_obj w') = false /\
  exists new pre line post,
    dfile = pre ++ line :: post /\
    DuckyCommand_init darwin KEYBOARD_KEYS (Py.strip line)
      (Z.of_nat (length pre)) 0 (Some script_iface) w' = (w', Raise e) /\
    heap w' = heap w ++ new /\
    DuckyCommand.raw_line <$> new = statements pre /\
    commands_of (script_obj w')
    = (if is_tuple (script_obj w) then [] else commands_of (script_obj w))
      ++ seq (length (heap w)) (length new).
Proof.
  unfold load. intros H.
  apply bindM_inv in H as [(w1 & [] & H1 & H)|[(e' & H1 & _)|[H1 [=]]]].
  2:{ destruct (is_tuple (script_obj w)); by injection H1. }
  assert (Hw1 : heap w1 = heap w /\ is_tuple (script_obj w1) = false /\
                commands_of (script_obj w1)
                = if is_tuple (script_obj w) then [] else commands_of (script_obj w)).
  { destruct (is_tuple (script_obj w)) eqn:Ht; injection H1 as <-; done. }
  destruct Hw1 as (Hh1 & Ht1 & Hc1).
  apply bindM_inv in H as [(w2 & [] & H2 & H)|[(e' & H2 & [= <-])|[H2 [=]]]];
    [done|].
  destruct (load_lines_spec _ _ _ _ _ _ _ H2 Ht1)
    as (new & Hh & _ & _ & Ht & Hc & pre & line & post & -> & Hnew & Hfail).
  split; [done|]. exists new, pre, line, post.
  rewrite Hh, Hc, Hc1, Hh1. done.
Qed.

(** What a [load] that returns on a script that is not loaded builds: its
    commands come after those the list held. *)
Lemma load_appends (darwin : bool) (KEYBOARD_KEYS : list string)
    (dfile : list string) (w w' : World) :
  is_tuple (script_obj w) = false ->
  load darwin KEYBOARD_KEYS dfile w = (w', Ok tt) ->
  exists new,
    heap w' = heap w ++ new /\
    DuckyCommand.raw_line <$> new = statements dfile /\
    DuckyScript.commands (script_obj w')
    = OwnTuple (commands_of (script_obj w)
                ++ seq (length (heap w)) (length new)).
Proof.
  unfold load. intros Ht H.
  apply bindM_Ok in H as (w1 & [] & H1 & H). rewrite Ht in H1.
  injection H1 as <-.
  apply bindM_Ok in H as (w2 & [] & H2 & [= <-]).
  destruct (load_lines_spec _ _ _ _ _ _ _ H2 Ht)
    as (new & Hh & _ & _ & _ & Hc & Hnew).
  exists new. cbn. by rewrite Hc.
Qed.

(** C3. A failed [load] is not undone: the commands built before the
    failing line stay in the command list of the script, which is left
    unfrozen, and the next [load] does not clear them. After a first load
    that raised and a second one that returns, the script holds the
    commands of the statements before the failing line of the first file,
    followed by the commands of the second file. *)
Theorem failed_load_leaves_commands
    (darwin : bool) (KEYBOARD_KEYS : list string) (dpath : string)
    (dfile dfile2 : list string) (w1 w2 : World) (e : Exn) :
  load darwin KEYBOARD_KEYS dfile (DuckyScript_init dpath) = (w1, Raise e) ->
  load darwin KEYBOARD_KEYS dfile2 w1 = (w2, Ok tt) ->
  exists pre line post old new,
    dfile = pre ++ line :: post /\
    heap w1 = old /\
    DuckyCommand.raw_line <$> old = statements pre /\
    is_tuple (script_obj w1) = false /\
    commands_of (script_obj w1) = seq 0 (length old) /\
    heap w2 = old ++ new /\
    DuckyCommand.raw_line <$> new = statements dfile2 /\
    DuckyScript.commands (script_obj w2)
    = OwnTuple (seq 0 (length old + length new)).
Proof.
  intros H1 H2.
  destruct (load_failure_keeps_partial _ _ _ _ _ _ H1)
    as (Ht & old & pre & line & post & -> & _ & Hh & Hraw & Hc).
  cbn in Hh, Hc.
  destruct (load_appends _ _ _ _ _ Ht H2) as (new & Hh2 & Hraw2 & Hc2).
  exists pre, line, post, old, new. rewrite Hh2, Hc2, Hc, Hh.
  repeat split; try done. by rewrite seq_app.
Qed.

Lemma failed_load_leaves_commands_witness :
  let w0 := DuckyScript_init "payload.txt" in
  let w1 := (load false pyautogui_KEYBOARD_KEYS
               (file_of ["STRING a"; "QUACK"]) w0).1 in
  let w2 := (load false pyautogui_KEYBOARD_KEYS
               (file_of ["STRING a"; "STRING b"]) w1).1 in
  load false pyautogui_KEYBOARD_KEYS (file_of ["STRING a"; "QUACK"]) w0
  = (w1, Raise ValueError) /\
  load false pyautogui_KEYBOARD_KEYS (file_of ["STRING a"; "STRING b"]) w1
  = (w2, Ok tt) /\
  commands_of (script_obj w1) = [0%nat] /\
  DuckyScript.commands (script_obj w2) = OwnTuple [0; 1; 2]%nat /\
  DuckyCommand.raw_line <$> heap w2 = ["STRING a"; "STRING a"; "STRING b"].
Proof.
  intros w0 w1 w2. split; [reflexivity|]. split; [reflexivity|].
  destruct (failed_load_leaves_commands false pyautogui_KEYBOARD_KEYS
              "payload.txt" (file_of ["STRING a"; "QUACK"])
              (file_of ["STRING a"; "STRING b"]) w1 w2 ValueError
              eq_refl eq_refl)
    as (pre & line & post & old & new & _ & Hold & _ & _ & Hc1 & _ & Hraw & Hc2).
  assert (Hl1 : length old = 1%nat) by (by rewrite <- Hold).
  assert (Hl2 : length new = 2%nat).
  { apply (f_equal length) in Hraw. by rewrite length_fmap in Hraw. }
  rewrite Hl1 in Hc1. rewrite Hl1, Hl2 in Hc2.
  split; [exact Hc1|]. split; [exact Hc2|]. reflexivity.
Defined.

(** Running the script after the file was put right presses the keys of
    its first line twice. *)
Lemma failed_load_then_run :
  let w1 := (load false pyautogui_KEYBOARD_KEYS
               (file_of ["STRING a"; "QUACK"])
               (DuckyScript_init "payload.txt")).1 in
  let r := run false pyautogui_KEYBOARD_KEYS 1
             (file_of ["STRING a"; "STRING b"]) w1 in
  r.2 = Ok tt /\
  events r.1
  = [EvDefaultDelay 0 0; EvSleep 0; EvCall 0; EvTypewrite "a";
     EvDefaultDelay 1 0; EvSleep 0; EvCall 1; EvTypewrite "a";
     EvDefaultDelay 2 0; EvSleep 0; EvCall 2; EvTypewrite "b"].
Proof. split; vm_compute; reflexivity. Qed.

(** C9. Loading a script that is already loaded replaces its command list
    by a tuple of the commands built in this pass, one per statement of the
    file and in order; none of them existed before, so no command of the
    earlier load is in the list; and the default delay of the script is not
    changed. *)
Theorem reload_replaces_commands
    (darwin : bool) (KEYBOARD_KEYS : list string) (dfile : list string)
    (w w' : World) :
  is_tuple (script_obj w) = true ->
  load darwin KEYBOARD_KEYS dfile w = (w', Ok tt) ->
  exists new,
    heap w' = heap w ++ new /\
    DuckyCommand.raw_line <$> new = statements dfile /\
    DuckyScript.commands (script_obj w')
    = OwnTuple (seq (length (heap w)) (length new)) /\
    (forall a, a ∈ commands_of (script_obj w') -> heap w !! a = None) /\
    DuckyScript._default_delay (script_obj w')
    = DuckyScript._default_delay (script_obj w).
Proof.
  unfold load. intros Ht H.
  apply bindM_Ok in H as (w1 & [] & H1 & H). rewrite Ht in H1.
  injection H1 as <-.
  apply bindM_Ok in H as (w2 & [] & H2 & [= <-]).
  destruct (load_lines_spec _ _ _ _ _ _ _ H2 eq_refl)
    as (new & Hh & _ & Hd & _ & Hc & Hnew).
  simpl in Hh, Hd, Hc. exists new. simpl. rewrite Hc, Hd. simpl.
  do 3 (split; [done|]). split; [|done].
  unfold commands_of. simpl. intros a Ha%elem_of_seq.
  apply lookup_ge_None. lia.
Qed.

(** ** Skip flags after calls that return *)















Section Returning.

Variable darwin : bool.
Variable KEYBOARD_KEYS : list string.

Lemma load_heap (dfile : list string) (w w' : World) (r : Res unit) :
  load darwin KEYBOARD_KEYS dfile w = (w', r) ->
  exists new, heap w' = heap w ++ new.
Proof.
  unfold load. intros H.
  assert (Hfirst : forall w1 r1,
             (if is_tuple (script_obj w) then set_commands (OwnList []) w
              else (w, Ok tt)) = (w1, r1) ->
             heap w1 = heap w /\ is_tuple (script_obj w1) = false /\ r1 = Ok tt).
  { intros w1 r1 H1. unfold set_commands, set_script in H1.
    destruct (is_tuple (script_obj w)) eqn:Ht; injection H1 as <- <-; done. }
  apply bindM_inv in H as [(w1 & [] & H1 & H)|[(e & H1 & _)|[H1 _]]];
    [|by apply Hfirst in H1 as (_ & _ & [=])..].
  apply Hfirst in H1 as (Hh1 & Ht1 & _). rewrite <- Hh1.
  apply bindM_inv in H as [(w2 & [] & H2 & H)|[(e & H2 & _)|[H2 _]]].
  - injection H as <- _.
    destruct (load_lines_spec _ _ _ _ _ _ _ H2 Ht1) as (new & Hh & _). eauto.
  - destruct (load_lines_spec _ _ _ _ _ _ _ H2 Ht1) as (new & Hh & _). eauto.
  - destruct (load_lines_spec _ _ _ _ _ _ _ H2 Ht1) as (new & Hh & _). eauto.
Qed.




End Returning.



(** ** The model always has an outcome to report *)

Lemma bindR_Undef {A B : Type} (m : Res A) (f : A -> Res B) :
  bindR m f = Undef -> m = Undef \/ exists a, m = Ok a /\ f a = Undef.
Proof. destruct m; simpl; [eauto|done|auto]. Qed.

Lemma getitem_defined {A : Type} (l : list A) (i : Z) : Py.getitem l i <> Undef.
Proof. unfold Py.getitem. by repeat case_match. Qed.

Lemma int_defined (s : string) : Py.int s <> Undef.
Proof. unfold Py.int. by repeat case_match. Qed.

Lemma mapR_defined {A B : Type} (f : A -> Res B) (l : list A) :
  (forall x, f x <> Undef) -> mapR f l <> Undef.
Proof.
  intros Hf. induction l as [|x l IH]; simpl; [done|].
  intros [H|(y & _ & [H|(ys & _ & H)]%bindR_Undef)]%bindR_Undef; try done.
  by apply (Hf x).
Qed.

Section Defined.

Variable darwin : bool.
Variable KEYBOARD_KEYS : list string.

Lemma _to_python_defined (self_script : option ScriptDict) (self_lineno : Z)
    (commands : list addr) (dline : string) :
  _to_python darwin KEYBOARD_KEYS self_script self_lineno commands dline
  <> Undef.
Proof.
  unfold _to_python. intros H.
  apply bindR_Undef in H as [H|(d0 & _ & H)]; [by apply getitem_defined in H|].
  destruct (is_valid_cmd_total darwin KEYBOARD_KEYS d0) as [valid Hv].
  rewrite Hv in H. cbn [bindR] in H. destruct (negb valid); [done|].
  apply bindR_Undef in H as [H|(d0' & _ & H)].
  { unfold get_alias_target in H. by repeat case_match. }
  assert (Hstep : forall (B : Type) (k : string -> Res B),
             (forall d1, k d1 <> Undef) ->
             bindR (Py.getitem (Py.split1 " " (Py.strip dline)) 1) k <> Undef).
  { intros B k Hk [Hg|(d1 & _ & Hg)]%bindR_Undef;
      [by apply getitem_defined in Hg|by apply Hk in Hg]. }
  repeat match type of H with
         | (if bool_decide ?P then _ else _) = _ => destruct (bool_decide P)
         end.
  - revert H. by apply Hstep.
  - revert H. apply Hstep. intros d1 [Hi|(? & _ & ?)]%bindR_Undef;
      [by apply int_defined in Hi|done].
  - revert H. apply Hstep. intros d1 [Hs|([] & _ & Hs)]%bindR_Undef.
    { unfold script_item in Hs. by repeat case_match. }
    apply bindR_Undef in Hs as [Hi|(? & _ & ?)];
      [by apply int_defined in Hi|done].
  - revert H. by apply Hstep.
  - revert H. apply Hstep. intros d1 [Hs|(t & _ & Hs)]%bindR_Undef.
    { apply bindR_Undef in Hs as [Hs|([] & _ & Hs)].
      - unfold script_item in Hs. by repeat case_match.
      - destruct (Py.getitem commands (self_lineno - 1)) as [?|[]|] eqn:Hg;
          try done. by apply getitem_defined in Hg. }
    apply bindR_Undef in Hs as [Hi|(? & _ & ?)];
      [by apply int_defined in Hi|done].
  - apply bindR_Undef in H as [H|(parts & _ & H)].
    + revert H. apply mapR_defined. intros [k|]; simpl; [|done].
      by destruct (translate_key_total darwin KEYBOARD_KEYS k) as [keys ->].
    + by destruct (existsb is_None (concat parts)).
Qed.

(** Loading never runs out of the model. *)
Lemma load_lines_defined (dfile : list string) (lineno : Z) (w : World) :
  is_tuple (script_obj w) = false ->
  (load_lines darwin KEYBOARD_KEYS lineno dfile w).2 <> Undef.
Proof.
  revert lineno w. induction dfile as [|line rest IH]; intros lineno w Ht;
    [done|].
  cbn [load_lines].
  destruct (0 <? Z.of_nat (String.length (Py.strip line))).
  - unfold bindM at 1 2.
    destruct (DuckyCommand_init _ _ _ _ _ _ w) as [w1 r1] eqn:Hinit.
    pose proof Hinit as Hinv. apply DuckyCommand_init_inv in Hinv.
    destruct r1 as [a|e|]; [|done|].
    + destruct Hinv as (-> & skip & f & _ & _ & ->).
      match goal with
      | |- context [commands_append ?a ?w1] =>
          destruct (commands_append_list a w1 Ht) as (w2 & -> & _ & _ & _ & Ht2 & _)
      end.
      by apply IH.
    + exfalso. unfold DuckyCommand_init in Hinit.
      destruct (check_script (Some script_iface)) as [[]| |] eqn:Hc; [|done..].
      cbn [bindR] in Hinit.
      destruct (_to_python _ _ _ _ _ _) as [[]| |] eqn:Hp; [done|done|].
      by apply _to_python_defined in Hp.
  - unfold bindM at 1, ret. by apply IH.
Qed.

Lemma load_defined (dfile : list string) (w : World) :
  (load darwin KEYBOARD_KEYS dfile w).2 <> Undef.
Proof.
  unfold load. unfold bindM at 1.
  assert (Hfirst : exists w1,
             (if is_tuple (script_obj w) then set_commands (OwnList []) w
              else (w, Ok tt)) = (w1, Ok tt) /\ is_tuple (script_obj w1) = false).
  { destruct (is_tuple (script_obj w)) eqn:Ht; eexists; split; try reflexivity.
    done. }
  destruct Hfirst as (w1 & -> & Ht1).
  unfold bindM at 1.
  pose proof (load_lines_defined dfile 0 w1 Ht1) as Hd.
  destruct (load_lines darwin KEYBOARD_KEYS 0 dfile w1) as [w2 [[]|e|]]; done.
Qed.

End Defined.



(** ** Executing a Repeat command *)




(** ** Instances on concrete scripts *)

Lemma loaded_wf (rows : list string) : wf_world (loaded rows).
Proof.
  unfold loaded.
  eapply (load_ext false pyautogui_KEYBOARD_KEYS (file_of rows));
    [apply surjective_pairing|apply DuckyScript_init_wf].
Qed.



Lemma reload_replaces_commands_witness :
  let w := (run false pyautogui_KEYBOARD_KEYS 1
              (file_of ["DEFAULT_DELAY 100"; "STRING a"])
              (DuckyScript_init "payload.txt")).1 in
  let w' := (load false pyautogui_KEYBOARD_KEYS (file_of ["STRING b"]) w).1 in
  is_tuple (script_obj w) = true /\
  load false pyautogui_KEYBOARD_KEYS (file_of ["STRING b"]) w = (w', Ok tt) /\
  DuckyScript.commands (script_obj w) = OwnTuple [0; 1]%nat /\
  DuckyScript.commands (script_obj w') = OwnTuple [2%nat] /\
  DuckyScript._default_delay (script_obj w') = 100 /\
  exists new,
    heap w' = heap w ++ new /\
    DuckyCommand.raw_line <$> new = statements (file_of ["STRING b"]) /\
    DuckyScript.commands (script_obj w')
    = OwnTuple (seq (length (heap w)) (length new)) /\
    (forall a, a ∈ commands_of (script_obj w') -> heap w !! a = None) /\
    DuckyScript._default_delay (script_obj w')
    = DuckyScript._default_delay (script_obj w).
Proof.
  intros w w'. do 5 (split; [reflexivity|]).
  apply (reload_replaces_commands false pyautogui_KEYBOARD_KEYS
           (file_of ["STRING b"]) w w'); reflexivity.
Defined.


(** Repeating the function [_cmd_rem] raises at the first round, whatever
    the count, as long as there is a round. *)
Lemma repeat_of_function_raises (execute : addr -> M unit) (n : Z) (w : World) :
  0 < n -> (_cmd_repeat execute TRemFunc n w).2 = Raise AttributeError.
Proof.
  intros Hn. unfold _cmd_repeat.
  destruct (Z.to_nat n) as [|k] eqn:Hk; [lia|]. reflexivity.
Qed.

(** C1. A script whose first statement is REPEAT 3 loads: the repeat is
    bound to the function [_cmd_rem], not to a command. Executing it, alone
    or through [run], raises AttributeError at the first repetition. *)
Theorem repeat_first_statement_raises :
  let w0 := DuckyScript_init "payload.txt" in
  let dfile := file_of ["REPEAT 3"] in
  let w1 := (load false pyautogui_KEYBOARD_KEYS dfile w0).1 in
  load false pyautogui_KEYBOARD_KEYS dfile w0 = (w1, Ok tt) /\
  DuckyCommand.python_func <$> heap w1 = [Fn_cmd_repeat TRemFunc 3] /\
  (execute 1 0 w1).2 = Raise AttributeError /\
  events (execute 1 0 w1).1 = [EvDefaultDelay 0 0; EvSleep 0; EvCall 0] /\
  (run false pyautogui_KEYBOARD_KEYS 1 dfile w0).2 = Raise AttributeError.
Proof. repeat split; reflexivity. Qed.

(** C4. With a blank line before it, the command at position 1 of the
    command list is the one of source line 2, and the REPEAT of line 2,
    looking at index 1 of a list that then holds one command, is bound to
    the function [_cmd_rem] instead of the statement before it; running the
    script raises. *)
Theorem repeat_after_blank_line_misses :
  let w0 := DuckyScript_init "payload.txt" in
  let dfile := file_of ["STRING a"; EmptyString; "REPEAT 2"] in
  let w1 := (load false pyautogui_KEYBOARD_KEYS dfile w0).1 in
  load false pyautogui_KEYBOARD_KEYS dfile w0 = (w1, Ok tt) /\
  DuckyScript.commands (script_obj w1) = OwnTuple [0; 1]%nat /\
  (fun c => (DuckyCommand.lineno c, DuckyCommand.raw_line c,
             DuckyCommand.python_func c)) <$> heap w1
  = [(0, "STRING a", Fn_typewrite "a");
     (2, "REPEAT 2", Fn_cmd_repeat TRemFunc 2)] /\
  (run false pyautogui_KEYBOARD_KEYS 1 dfile w0).2 = Raise AttributeError /\
  events (run false pyautogui_KEYBOARD_KEYS 1 dfile w0).1
  = [EvDefaultDelay 0 0; EvSleep 0; EvCall 0; EvTypewrite "a";
     EvDefaultDelay 1 0; EvSleep 0; EvCall 1].
Proof. repeat split; reflexivity. Qed.

(** The list that REPEAT consults is the one [__init__] stored under
    [_script['commands']], which a reload does not replace: after a script
    was loaded from [STRING a; STRING c], reloading it from
    [STRING b; REPEAT 2] binds the repeat to the command of [STRING a]. *)
Lemma reload_repeat_refers_to_earlier_load :
  let w := loaded ["STRING a"; "STRING c"] in
  let dfile := file_of ["STRING b"; "REPEAT 2"] in
  let w' := (load false pyautogui_KEYBOARD_KEYS dfile w).1 in
  load false pyautogui_KEYBOARD_KEYS dfile w = (w', Ok tt) /\
  DuckyScript.commands (script_obj w') = OwnTuple [2; 3]%nat /\
  DuckyScript.iface_commands (script_obj w') = [0; 1]%nat /\
  (fun c => (DuckyCommand.raw_line c, DuckyCommand.python_func c)) <$> heap w'
  = [("STRING a", Fn_typewrite "a"); ("STRING c", Fn_typewrite "c");
     ("STRING b", Fn_typewrite "b"); ("REPEAT 2", Fn_cmd_repeat (TCmd 0) 2)].
Proof. repeat split; reflexivity. Qed.

(** * More properties of the module *)

(** ** Aliases and keys *)

Lemma dict_get_elem (d : list (string * string)) (k v : string) :
  Py.dict_get d k = Some v -> (k, v) ∈ d.
Proof.
  induction d as [|[k' v'] d IH]; simpl; [done|].
  destruct (String.eqb_spec k' k) as [->|_].
  - intros [= ->]. left.
  - intros H. right. by apply IH.
Qed.

Lemma first_alias_of_elem (d : list (string * string)) (dcmd a : string) :
  first_alias_of d dcmd = Some a -> (a, dcmd) ∈ d.
Proof.
  induction d as [|[k' v'] d IH]; simpl; [done|].
  destruct (String.eqb_spec dcmd v') as [->|_].
  - intros [= ->]. left.
  - intros H. right. by apply IH.
Qed.

(** What holds of every item of [ALIAS]: the target is no alias, the alias
    is no statement verb and has no ['-'], and the two lookups invert each
    other. *)
Lemma ALIAS_items :
  Forall (fun item =>
            is_valid_alias item.2 = false /\
            Py.str_in item.1 COMMANDS = false /\
            Py.contains "-" item.1 = false /\
            Py.dict_get ALIAS item.1 = Some item.2 /\
            first_alias_of ALIAS item.2 = Some item.1) ALIAS.
Proof. vm_compute. repeat constructor. Qed.

Lemma ALIAS_item (a t : string) :
  Py.dict_get ALIAS a = Some t ->
  is_valid_alias t = false /\
  Py.str_in a COMMANDS = false /\
  Py.contains "-" a = false /\
  first_alias_of ALIAS t = Some a.
Proof.
  intros H%dict_get_elem.
  pose proof ALIAS_items as HA. rewrite Forall_forall in HA.
  destruct (HA _ H) as (H1 & H2 & H3 & _ & H5). done.
Qed.

(** X1. [get_alias_target] returns the target of an alias, never [None],
    and the target is itself no alias: resolution takes one step. On
    anything else it raises ValueError. *)
Theorem alias_resolution_single_hop (dalias : string) :
  match get_alias_target dalias with
  | Ok (Some t) => is_valid_alias dalias = true /\ is_valid_alias t = false
  | Raise ValueError => is_valid_alias dalias = false
  | _ => False
  end.
Proof.
  unfold get_alias_target. destruct (is_valid_alias dalias) eqn:Ha; [|done].
  cbn [negb]. destruct (dict_get_keys ALIAS dalias Ha) as [t Ht]. rewrite Ht.
  split; [done|]. by apply ALIAS_item in Ht as (? & _).
Qed.

Lemma lower_char_idem (c : ascii) :
  Py.lower_char (Py.lower_char c) = Py.lower_char c.
Proof.
  unfold Py.lower_char.
  destruct ((65 <=? nat_of_ascii c)%nat && (nat_of_ascii c <=? 90)%nat) eqn:H.
  - apply andb_prop in H as [H1%Nat.leb_le H2%Nat.leb_le].
    rewrite nat_ascii_embedding by lia.
    replace ((nat_of_ascii c + 32 <=? 90)%nat) with false
      by (symmetry; apply Nat.leb_gt; lia).
    by rewrite andb_false_r.
  - by rewrite H.
Qed.

Lemma lower_idem (s : string) : Py.lower (Py.lower s) = Py.lower s.
Proof.
  induction s as [|c s IH]; simpl; [done|]. by rewrite lower_char_idem, IH.
Qed.

Lemma split_no_sep (sep : ascii) (s : string) :
  Py.contains sep s = false -> Py.split sep s = [s].
Proof.
  induction s as [|c s IH]; simpl; [done|].
  intros [Hc Hs]%orb_false_elim. rewrite Hc, (IH Hs). done.
Qed.

Lemma mapR_length {A B : Type} (f : A -> Res B) (l : list A) (ys : list B) :
  mapR f l = Ok ys -> length ys = length l.
Proof.
  revert ys. induction l as [|x l IH]; simpl; intros ys H.
  - by injection H as <-.
  - apply bindR_Ok in H as (y & _ & H). apply bindR_Ok in H as (ys' & H' & H).
    injection H as <-. simpl. by rewrite (IH ys').
Qed.

Lemma mapR_Forall {A B : Type} (f : A -> Res B) (P : B -> Prop)
    (l : list A) (ys : list B) :
  (forall x y, f x = Ok y -> P y) -> mapR f l = Ok ys -> Forall P ys.
Proof.
  intros Hf. revert ys. induction l as [|x l IH]; simpl; intros ys H.
  - injection H as <-. constructor.
  - apply bindR_Ok in H as (y & Hy & H). apply bindR_Ok in H as (ys' & H' & H).
    injection H as <-. constructor; eauto.
Qed.

Section KeyFacts.

Variable darwin : bool.
Variable KEYBOARD_KEYS : list string.

Lemma translate_plain_known (dkey : string) (keys : list pykey) :
  translate_plain darwin KEYBOARD_KEYS dkey = Ok keys ->
  length keys = 1%nat /\ Forall (known KEYBOARD_KEYS) keys.
Proof.
  unfold translate_plain. intros H.
  apply bindR_Ok in H as ([d|] & _ & H); [|done].
  destruct (negb _) eqn:Hin; injection H as <-; (split; [done|]);
    apply Forall_singleton; simpl; [done|].
  apply negb_false_iff in Hin. split; [done|]. apply lower_idem.
Qed.

End KeyFacts.

Section KeyResults.

Variable darwin : bool.
Variable KEYBOARD_KEYS : list string.

Lemma concat_singletons {A : Type} (P : A -> Prop) (parts : list (list A)) :
  Forall (fun p => length p = 1%nat /\ Forall P p) parts ->
  length (concat parts) = length parts /\ Forall P (concat parts).
Proof.
  induction 1 as [|p parts [Hl Hp] _ [IH1 IH2]]; simpl; [done|].
  rewrite length_app, Hl, IH1. split; [done|]. by apply Forall_app.
Qed.

(** X2. [translate_key] always returns; its result has one entry for each
    ['-']-separated part of the key (so it is never empty); and every
    entry is [None] or a lower-case name that is in [KEYBOARD_KEYS]. *)
Theorem translate_key_result (dkey : string) :
  exists keys : list pykey,
    translate_key darwin KEYBOARD_KEYS dkey = Ok keys /\
    length keys = length (Py.split "-" dkey) /\
    Forall (known KEYBOARD_KEYS) keys.
Proof.
  destruct (Py.contains "-" dkey) eqn:H.
  - unfold translate_key.
    pose proof (contains_length _ _ H) as Hlen.
    destruct (String.length dkey) as [|n]; [lia|].
    destruct (translate_key_rec_dash darwin KEYBOARD_KEYS n dkey H)
      as (parts & Hparts & ->).
    exists (concat parts). split; [done|].
    rewrite <- (mapR_length _ _ _ Hparts).
    apply (concat_singletons (known KEYBOARD_KEYS)).
    eapply mapR_Forall; [|exact Hparts].
    intros x y. apply translate_plain_known.
  - rewrite (translate_key_no_dash _ _ _ H), (split_no_sep _ _ H).
    destruct (translate_plain_single darwin KEYBOARD_KEYS dkey) as [k Hk].
    rewrite Hk. exists [k]. split; [done|].
    by apply translate_plain_known in Hk.
Qed.

(** X3. An alias translates to the very keys its target translates to. *)
Theorem alias_translates_as_target (dalias t : string) :
  get_alias_target dalias = Ok (Some t) ->
  translate_key darwin KEYBOARD_KEYS dalias
  = translate_key darwin KEYBOARD_KEYS t.
Proof.
  unfold get_alias_target. destruct (is_valid_alias dalias); [|done].
  cbn [negb]. intros [= H]. symmetry. by apply translate_key_alias.
Qed.

(** X4. Whether an alias is a valid command is decided by its target as a
    key alone: an alias is valid exactly when every key of its target
    resolves, also when the target is a statement verb. *)
Theorem alias_valid_iff_target_is_key (dalias t : string) (keys : list pykey) :
  get_alias_target dalias = Ok (Some t) ->
  translate_key darwin KEYBOARD_KEYS t = Ok keys ->
  is_valid_cmd darwin KEYBOARD_KEYS dalias = Ok (negb (existsb is_None keys)).
Proof.
  intros Ht Hkeys. unfold is_valid_cmd.
  unfold get_alias_target in Ht. destruct (is_valid_alias dalias); [|done].
  cbn [negb] in Ht. injection Ht as Ht.
  rewrite <- (translate_key_alias darwin KEYBOARD_KEYS _ _ Ht), Hkeys.
  cbn [bindR]. apply ALIAS_item in Ht as (_ & -> & _).
  by destruct (existsb is_None keys).
Qed.

(** X5. Unless the host has a key named [default_delay], no line whose
    first token is DEFAULTDELAY is translated: the validity check refuses
    the alias, whatever follows it. *)
Theorem DEFAULTDELAY_refused (self_script : option ScriptDict)
    (self_lineno : Z) (commands : list addr) (dline : string)
    (rest : list string) :
  Py.str_in "default_delay" KEYBOARD_KEYS = false ->
  Py.split1 " " (Py.strip dline) = "DEFAULTDELAY" :: rest ->
  _to_python darwin KEYBOARD_KEYS self_script self_lineno commands dline
  = Raise ValueError.
Proof.
  intros Hkey Hsplit. unfold _to_python. rewrite Hsplit.
  change (Py.getitem ("DEFAULTDELAY" :: rest) 0) with (Ok "DEFAULTDELAY").
  cbn [bindR]. unfold is_valid_cmd.
  rewrite <- (translate_key_alias darwin KEYBOARD_KEYS
                "DEFAULTDELAY" "DEFAULT_DELAY" eq_refl).
  change (translate_key darwin KEYBOARD_KEYS "DEFAULT_DELAY")
    with (if negb (Py.str_in "default_delay" KEYBOARD_KEYS)
          then Ok [None] else Ok [Some "default_delay"]).
  by rewrite Hkey.
Qed.

(** X6. [get_alias] and [get_alias_target] invert each other: on a valid
    command [dcmd], [get_alias] returns the alias [a] exactly when [a] is an
    alias whose target is [dcmd]. *)
Theorem get_alias_inverts_target (dcmd a : string) :
  is_valid_cmd darwin KEYBOARD_KEYS dcmd = Ok true ->
  get_alias darwin KEYBOARD_KEYS dcmd = Ok (Some a) <->
  get_alias_target a = Ok (Some dcmd).
Proof.
  intros Hvalid. unfold get_alias. rewrite Hvalid. cbn [bindR negb]. split.
  - destruct (is_valid_alias dcmd); [done|]. intros H0.
    assert (H : first_alias_of ALIAS dcmd = Some a) by congruence. clear H0.
    apply first_alias_of_elem in H.
    pose proof ALIAS_items as HA. rewrite Forall_forall in HA.
    destruct (HA _ H) as (_ & _ & _ & Hget & _). cbn [fst snd] in Hget.
    unfold get_alias_target.
    assert (Ha : is_valid_alias a = true).
    { unfold is_valid_alias, Py.str_in. apply existsb_exists. exists a.
      split; [|apply String.eqb_refl].
      apply list_elem_of_In, list_elem_of_fmap. by exists (a, dcmd). }
    by rewrite Ha, Hget.
  - unfold get_alias_target. destruct (is_valid_alias a); [|done].
    cbn [negb]. intros [= H]. apply ALIAS_item in H as (-> & _ & _ & ->). done.
Qed.

End KeyResults.

Lemma alias_translates_as_target_witness :
  get_alias_target "WINDOWS" = Ok (Some "GUI") /\
  translate_key false pyautogui_KEYBOARD_KEYS "WINDOWS"
  = translate_key false pyautogui_KEYBOARD_KEYS "GUI".
Proof.
  split; [reflexivity|].
  apply (alias_translates_as_target false pyautogui_KEYBOARD_KEYS "WINDOWS" "GUI").
  reflexivity.
Defined.

Lemma alias_valid_iff_target_is_key_witness :
  get_alias_target "DEFAULTDELAY" = Ok (Some "DEFAULT_DELAY") /\
  translate_key false pyautogui_KEYBOARD_KEYS "DEFAULT_DELAY" = Ok [None] /\
  is_valid_cmd false pyautogui_KEYBOARD_KEYS "DEFAULTDELAY"
  = Ok (negb (existsb is_None [None])).
Proof.
  split; [reflexivity|]. split; [reflexivity|].
  apply (alias_valid_iff_target_is_key false pyautogui_KEYBOARD_KEYS
           "DEFAULTDELAY" "DEFAULT_DELAY" [None]); reflexivity.
Defined.

Lemma DEFAULTDELAY_refused_witness :
  Py.str_in "default_delay" pyautogui_KEYBOARD_KEYS = false /\
  Py.split1 " " (Py.strip "DEFAULTDELAY 100") = ["DEFAULTDELAY"; "100"] /\
  _to_python false pyautogui_KEYBOARD_KEYS (Some script_iface) 0 []
    "DEFAULTDELAY 100" = Raise ValueError.
Proof.
  split; [reflexivity|]. split; [reflexivity|].
  apply (DEFAULTDELAY_refused false pyautogui_KEYBOARD_KEYS (Some script_iface)
           0 [] "DEFAULTDELAY 100" ["100"]); reflexivity.
Defined.

Lemma get_alias_inverts_target_witness :
  is_valid_cmd false pyautogui_KEYBOARD_KEYS "ESCAPE" = Ok true /\
  get_alias false pyautogui_KEYBOARD_KEYS "ESCAPE" = Ok (Some "ESC") /\
  get_alias_target "ESC" = Ok (Some "ESCAPE").
Proof.
  split; [reflexivity|]. split; [reflexivity|].
  apply (get_alias_inverts_target false pyautogui_KEYBOARD_KEYS "ESCAPE" "ESC");
    reflexivity.
Defined.

(** ** Statements *)

Lemma getitem_nat {A : Type} (l : list A) (k : nat) (x : A) :
  l !! k = Some x -> Py.getitem l (Z.of_nat k) = Ok x.
Proof.
  intros H. pose proof (lookup_lt_Some _ _ _ H) as Hlt. unfold Py.getitem.
  destruct (Z.ltb_spec (Z.of_nat k) 0); [lia|].
  rewrite (proj2 (Z.leb_le _ _)), (proj2 (Z.ltb_lt _ _)) by lia.
  cbn [andb]. by rewrite Nat2Z.id, H.
Qed.

Lemma getitem_wrap {A : Type} (l : list A) (i : Z) (k : nat) (x : A) :
  i < 0 -> i + Z.of_nat (length l) = Z.of_nat k -> l !! k = Some x ->
  Py.getitem l i = Ok x.
Proof.
  intros Hi Hk H. pose proof (lookup_lt_Some _ _ _ H) as Hlt.
  unfold Py.getitem. destruct (Z.ltb_spec i 0); [|lia]. rewrite Hk.
  rewrite (proj2 (Z.leb_le _ _)), (proj2 (Z.ltb_lt _ _)) by lia.
  cbn [andb]. by rewrite Nat2Z.id, H.
Qed.

Lemma getitem_out {A : Type} (l : list A) (i : Z) :
  Z.of_nat (length l) <= i \/ i < - Z.of_nat (length l) ->
  Py.getitem l i = Raise IndexError.
Proof.
  intros Hi. unfold Py.getitem.
  destruct (Z.ltb_spec i 0).
  - rewrite (proj2 (Z.leb_gt _ _)) by lia. done.
  - rewrite (proj2 (Z.ltb_ge _ _)) by lia. by rewrite andb_false_r.
Qed.

Lemma int_cases (s : string) :
  (exists z, Py.int s = Ok z) \/ Py.int s = Raise ValueError.
Proof. unfold Py.int. repeat case_match; eauto. Qed.

Section Statements.

Variable darwin : bool.
Variable KEYBOARD_KEYS : list string.

Lemma verb_valid (v : string) :
  Py.str_in v COMMANDS = true -> is_valid_cmd darwin KEYBOARD_KEYS v = Ok true.
Proof.
  intros Hv. unfold is_valid_cmd.
  destruct (translate_key_total darwin KEYBOARD_KEYS v) as [keys ->].
  cbn [bindR]. rewrite Hv. by destruct (existsb is_None keys).
Qed.

(** What [_to_python] does with a line cut in two whose first part is a
    statement verb: the dispatch that follows the validity check. *)
Lemma _to_python_verb (self_script : option ScriptDict) (self_lineno : Z)
    (commands : list addr) (dline v d1 : string) :
  Py.split1 " " (Py.strip dline) = [v; d1] ->
  Py.str_in v COMMANDS = true ->
  _to_python darwin KEYBOARD_KEYS self_script self_lineno commands dline
  = (if bool_decide (Some v = Some "REM") then Ok (true, Fn_cmd_rem d1)
     else if bool_decide (Some v = Some "DELAY") then
       let* ms := Py.int d1 in Ok (false, Fn_cmd_delay ms)
     else if bool_decide (Some v = Some "DEFAULT_DELAY") then
       let* _ := script_item self_script has_set_default_delay in
       let* ms := Py.int d1 in Ok (false, Fn_set_default_delay ms)
     else if bool_decide (Some v = Some "STRING") then Ok (false, Fn_typewrite d1)
     else
       let* to_repeat :=
         (let* _ := script_item self_script has_commands in
          match Py.getitem commands (self_lineno - 1) with
          | Ok a => Ok (TCmd a)
          | Raise IndexError => Ok TRemFunc
          | Raise e => Raise e
          | Undef => Undef
          end) in
       let* n := Py.int d1 in
       Ok (false, Fn_cmd_repeat to_repeat n))%res.
Proof.
  intros Hsplit Hv. unfold _to_python. rewrite Hsplit.
  change (Py.getitem [v; d1] 0) with (Ok v).
  change (Py.getitem [v; d1] 1) with (Ok d1). cbn [bindR].
  rewrite (verb_valid v Hv). cbn [bindR negb].
  assert (Ha : is_valid_alias v = false).
  { revert Hv. unfold COMMANDS, Py.str_in. cbn [existsb].
    intros Hv. repeat (apply orb_prop in Hv as [Hv|Hv];
                       [apply String.eqb_eq in Hv; by subst|]).
    done. }
  rewrite Ha. cbn [bindR].
  repeat (case_bool_decide; [done|]).
  exfalso. revert Hv. unfold COMMANDS, Py.str_in. cbn [existsb].
  intros Hv. repeat (apply orb_prop in Hv as [Hv|Hv];
                     [apply String.eqb_eq in Hv; by subst|]).
  done.
Qed.

(** X7. The translator sets [_skip_delay] for comments and for nothing
    else: of a command it builds, the flag is [True] exactly when its
    function is [_cmd_rem]. *)
Theorem skip_delay_iff_comment (self_script : option ScriptDict)
    (self_lineno : Z) (commands : list addr) (dline : string)
    (skip : bool) (f : PyFunc) :
  _to_python darwin KEYBOARD_KEYS self_script self_lineno commands dline
  = Ok (skip, f) ->
  skip = true <-> exists comment, f = Fn_cmd_rem comment.
Proof.
  unfold _to_python. intros H.
  apply bindR_Ok in H as (d0 & _ & H).
  apply bindR_Ok in H as (valid & _ & H).
  destruct (negb valid); [done|].
  apply bindR_Ok in H as (d0' & _ & H).
  repeat match type of H with
         | (if bool_decide ?P then _ else _) = _ =>
             destruct (bool_decide P);
             [repeat (apply bindR_Ok in H as (? & _ & H));
              injection H as <- <-; split; [eauto; done|by intros [? [=]]]|]
         end.
  apply bindR_Ok in H as (parts & _ & H).
  destruct (existsb is_None (concat parts)); [done|].
  injection H as <- <-. split; [done|by intros [? [=]]].
Qed.

(** X8. REM and STRING take the whole of the stripped line after the first
    space as their text, spaces included: such a line is always translated,
    with or without a script. *)
Theorem text_statements_keep_remainder (self_script : option ScriptDict)
    (self_lineno : Z) (commands : list addr) (dline text : string) :
  (Py.split1 " " (Py.strip dline) = ["REM"; text] ->
   _to_python darwin KEYBOARD_KEYS self_script self_lineno commands dline
   = Ok (true, Fn_cmd_rem text)) /\
  (Py.split1 " " (Py.strip dline) = ["STRING"; text] ->
   _to_python darwin KEYBOARD_KEYS self_script self_lineno commands dline
   = Ok (false, Fn_typewrite text)).
Proof.
  split; intros H; by rewrite (_to_python_verb _ _ _ _ _ _ H).
Qed.

(** X9. The argument of DELAY is read by [int] and not checked further:
    every literal [int] accepts, a negative one too, gives a delay command
    of that length, and a remainder [int] refuses raises ValueError. *)
Theorem DELAY_argument (self_script : option ScriptDict)
    (self_lineno : Z) (commands : list addr) (dline d1 : string) :
  Py.split1 " " (Py.strip dline) = ["DELAY"; d1] ->
  (forall ms, Py.int d1 = Ok ms ->
     _to_python darwin KEYBOARD_KEYS self_script self_lineno commands dline
     = Ok (false, Fn_cmd_delay ms)) /\
  ((forall ms, Py.int d1 <> Ok ms) ->
     _to_python darwin KEYBOARD_KEYS self_script self_lineno commands dline
     = Raise ValueError).
Proof.
  intros H. rewrite (_to_python_verb _ _ _ _ _ _ H) by done.
  rewrite bool_decide_eq_false_2 by done.
  rewrite bool_decide_eq_true_2 by done.
  split.
  - by intros ms ->.
  - intros Hn. destruct (int_cases d1) as [[z Hz]| ->]; [by apply Hn in Hz|done].
Qed.

(** X10. DEFAULT_DELAY and REPEAT need the script: on a command built
    without one they raise TypeError, and with an empty dictionary KeyError,
    before their argument is even read as an integer. *)
Theorem script_statements_need_script (self_lineno : Z)
    (commands : list addr) (dline v d1 : string) :
  Py.split1 " " (Py.strip dline) = [v; d1] ->
  v = "DEFAULT_DELAY" \/ v = "REPEAT" ->
  _to_python darwin KEYBOARD_KEYS None self_lineno commands dline
  = Raise TypeError /\
  _to_python darwin KEYBOARD_KEYS (Some (mkScriptDict false false false))
    self_lineno commands dline
  = Raise KeyError.
Proof.
  intros H [-> | ->]; split; by rewrite (_to_python_verb _ _ _ _ _ _ H).
Qed.

(** X11. The command a REPEAT refers to is [commands[lineno - 1]] with
    Python's indexing: the command at that index from line 1 on; for a
    line number of 0 or below, as long as the index wraps around, a command
    counted from the end of the list (the last one for line 0); and the
    function [_cmd_rem] when the index is out of range on either side. *)
Theorem REPEAT_target (d : ScriptDict) (self_lineno : Z)
    (commands : list addr) (dline d1 : string) (n : Z) :
  Py.split1 " " (Py.strip dline) = ["REPEAT"; d1] ->
  Py.int d1 = Ok n ->
  has_commands d = true ->
  let result :=
    _to_python darwin KEYBOARD_KEYS (Some d) self_lineno commands dline in
  let len := Z.of_nat (length commands) in
  (forall a, 1 <= self_lineno ->
     commands !! Z.to_nat (self_lineno - 1) = Some a ->
     result = Ok (false, Fn_cmd_repeat (TCmd a) n)) /\
  (forall a, self_lineno <= 0 ->
     0 <= self_lineno - 1 + len ->
     commands !! Z.to_nat (self_lineno - 1 + len) = Some a ->
     result = Ok (false, Fn_cmd_repeat (TCmd a) n)) /\
  (len < self_lineno \/ self_lineno - 1 + len < 0 ->
     result = Ok (false, Fn_cmd_repeat TRemFunc n)).
Proof.
  intros H Hint Hd result len. unfold result.
  rewrite (_to_python_verb _ _ _ _ _ _ H) by done.
  do 4 (rewrite bool_decide_eq_false_2 by done).
  cbn [script_item]. rewrite Hd, Hint. cbn [bindR].
  split; [|split].
  - intros a Hl Ha.
    replace (self_lineno - 1) with (Z.of_nat (Z.to_nat (self_lineno - 1)))
      by lia.
    by rewrite (getitem_nat _ _ _ Ha).
  - intros a Hl Hw Ha.
    rewrite (getitem_wrap commands (self_lineno - 1)
               (Z.to_nat (self_lineno - 1 + len)) a); [done|lia| |done].
    fold len. lia.
  - intros Hout. rewrite getitem_out; [done|]. fold len. lia.
Qed.

End Statements.

Lemma skip_delay_iff_comment_witness :
  _to_python false pyautogui_KEYBOARD_KEYS None (-1) [] "REM a note"
  = Ok (true, Fn_cmd_rem "a note") /\
  (true = true <-> exists comment, Fn_cmd_rem "a note" = Fn_cmd_rem comment).
Proof.
  split; [reflexivity|].
  apply (skip_delay_iff_comment false pyautogui_KEYBOARD_KEYS None (-1) []
           "REM a note").
  reflexivity.
Defined.

Lemma DELAY_argument_witness :
  let fs5 := String (ascii_of_nat 28) "5" in
  Py.split1 " " (Py.strip "DELAY -5") = ["DELAY"; "-5"] /\
  Py.int "-5" = Ok (-5) /\
  _to_python false pyautogui_KEYBOARD_KEYS None (-1) [] "DELAY -5"
  = Ok (false, Fn_cmd_delay (-5)) /\
  Py.split1 " " (Py.strip (String.append "DELAY " fs5)) = ["DELAY"; fs5] /\
  _to_python false pyautogui_KEYBOARD_KEYS None (-1) []
    (String.append "DELAY " fs5)
  = Raise ValueError.
Proof.
  intros fs5. split; [reflexivity|]. split; [reflexivity|].
  split; [|split; [reflexivity|]].
  - apply (DELAY_argument false pyautogui_KEYBOARD_KEYS None (-1) []
             "DELAY -5" "-5"); reflexivity.
  - apply (DELAY_argument false pyautogui_KEYBOARD_KEYS None (-1) []
             (String.append "DELAY " fs5) fs5); [reflexivity|].
    intros ms. vm_compute. discriminate.
Defined.

(** [int] is not [strip]: a separator character that [strip] drops is no
    whitespace for [int]; one underscore may stand between two digits; and
    a literal of more than [int_max_str_digits] digits is refused. *)
Lemma int_examples :
  Py.strip (String (ascii_of_nat 28) "5") = "5" /\
  Py.int (String (ascii_of_nat 28) "5") = Raise ValueError /\
  Py.int (String (ascii_of_nat 9) "+5 ") = Ok 5 /\
  Py.int "1_0" = Ok 10 /\
  Py.int "1__0" = Raise ValueError /\
  Py.int "- 5" = Raise ValueError /\
  Py.int (Nat.iter 4300 (String "1") EmptyString)
  <> Raise ValueError /\
  Py.int (Nat.iter 4301 (String "1") EmptyString) = Raise ValueError.
Proof.
  repeat split; try (vm_compute; reflexivity). vm_compute. discriminate.
Qed.

Lemma script_statements_need_script_witness :
  Py.split1 " " (Py.strip "DEFAULT_DELAY ten") = ["DEFAULT_DELAY"; "ten"] /\
  _to_python false pyautogui_KEYBOARD_KEYS None (-1) [] "DEFAULT_DELAY ten"
  = Raise TypeError /\
  _to_python false pyautogui_KEYBOARD_KEYS (Some (mkScriptDict false false false))
    (-1) [] "DEFAULT_DELAY ten"
  = Raise KeyError.
Proof.
  split; [reflexivity|].
  apply (script_statements_need_script false pyautogui_KEYBOARD_KEYS (-1) []
           "DEFAULT_DELAY ten" "DEFAULT_DELAY" "ten"); [reflexivity|by left].
Defined.

Lemma REPEAT_target_witness :
  Py.split1 " " (Py.strip "REPEAT 2") = ["REPEAT"; "2"] /\
  Py.int "2" = Ok 2 /\
  _to_python false pyautogui_KEYBOARD_KEYS (Some script_iface) 0 [4; 7]%nat
    "REPEAT 2"
  = Ok (false, Fn_cmd_repeat (TCmd 7) 2).
Proof.
  split; [reflexivity|]. split; [reflexivity|].
  destruct (REPEAT_target false pyautogui_KEYBOARD_KEYS script_iface 0
              [4; 7]%nat "REPEAT 2" "2" 2 eq_refl eq_refl eq_refl)
    as (_ & Hwrap & _).
  apply (Hwrap 7%nat); [lia|simpl; lia|reflexivity].
Defined.

Lemma text_statements_keep_remainder_witness :
  Py.split1 " " (Py.strip "STRING two  words ") = ["STRING"; "two  words"] /\
  _to_python false pyautogui_KEYBOARD_KEYS None (-1) [] "STRING two  words "
  = Ok (false, Fn_typewrite "two  words").
Proof.
  split; [reflexivity|].
  apply (text_statements_keep_remainder false pyautogui_KEYBOARD_KEYS None (-1)
           [] "STRING two  words " "two  words").
  reflexivity.
Defined.

(** ** Execution *)

(** Calling a function that never raises. *)
Lemma call_simple (ex : addr -> M unit) (f : PyFunc) (w : World) :
  never_raises f = true ->
  exists w',
    call ex f w = (w', Ok tt) /\
    heap w' = heap w /\
    events w' = events w ++ action_events f /\
    DuckyScript._default_delay (script_obj w')
    = action_default_delay f (DuckyScript._default_delay (script_obj w)) /\
    DuckyScript.commands (script_obj w') = DuckyScript.commands (script_obj w) /\
    DuckyScript.iface_commands (script_obj w')
    = DuckyScript.iface_commands (script_obj w).
Proof.
  destruct f as [c|ms|nd|msg|keys|t n]; cbn [never_raises call]; intros H;
    try done.
  - exists w. cbn. by rewrite app_nil_r.
  - apply Z.leb_le in H. unfold _cmd_delay.
    rewrite (proj2 (Z.ltb_ge _ _)) by lia. eexists. split; [done|]. done.
  - eexists. split; [done|]. cbn. by rewrite app_nil_r.
  - eexists. split; [done|]. done.
  - eexists. split; [done|]. done.
Qed.

(** The execution of a command that is no repeat, when no wait is
    negative. *)
Lemma execute_simple (fuel : nat) (a : addr)
    (c : DuckyCommand.t) (w : World) :
  heap w !! a = Some c ->
  check_script (DuckyCommand._script c) = Ok tt ->
  never_raises (DuckyCommand.python_func c) = true ->
  let d := effective_default_delay w c in
  DuckyCommand._skip_delay c = true \/ 0 <= d ->
  exists w',
    execute (S fuel) a w = (w', Ok tt) /\
    heap w' = heap w /\
    events w'
    = events w
      ++ (if DuckyCommand._skip_delay c then []
          else [EvDefaultDelay a d; EvSleep d])
      ++ EvCall a :: action_events (DuckyCommand.python_func c) /\
    DuckyScript._default_delay (script_obj w')
    = action_default_delay (DuckyCommand.python_func c)
        (DuckyScript._default_delay (script_obj w)) /\
    commands_of (script_obj w') = commands_of (script_obj w).
Proof.
  intros Hc Hchk Hnr d Hd.
  rewrite execute_unfold, Hc, execute_body_run, default_delay_step_run by done.
  fold d.
  assert (Hcall : forall tr,
    exists w',
      call (execute fuel) (DuckyCommand.python_func c) (add_events w tr)
      = (w', Ok tt) /\
      heap w' = heap w /\
      events w' = events w ++ tr ++ action_events (DuckyCommand.python_func c) /\
      DuckyScript._default_delay (script_obj w')
      = action_default_delay (DuckyCommand.python_func c)
          (DuckyScript._default_delay (script_obj w)) /\
      commands_of (script_obj w') = commands_of (script_obj w)).
  { intros tr.
    destruct (call_simple (execute fuel) _ (add_events w tr) Hnr)
      as (w' & Hw' & Hh & He & Hdd & Hcm & Hif).
    exists w'. split; [done|]. split; [done|].
    split; [rewrite He; cbn; by rewrite <- app_assoc|]. split; [done|].
    unfold commands_of. by rewrite Hcm, Hif. }
  destruct (DuckyCommand._skip_delay c).
  - destruct (Hcall [EvCall a]) as (w' & Hw' & H). by exists w'.
  - destruct Hd as [|Hd]; [done|]. cbv zeta.
    destruct (Z.ltb_spec d 0) as [|_]; [lia|]. rewrite add_events_app.
    destruct (Hcall [EvDefaultDelay a d; EvSleep d; EvCall a])
      as (w' & Hw' & H).
    by exists w'.
Qed.

(** X12. Executing a command that is no repeat, when every wait is within
    the clock and none is negative: the call returns; it first waits the
    effective default delay, unless the command skips it, and then calls
    the function, which reaches the host at most once; no object changes. A
    DEFAULT_DELAY waits the old delay itself: the new one is in force from
    the next command on. *)
Theorem simple_command_execution (fuel : nat) (a : addr)
    (c : DuckyCommand.t) (w : World) :
  heap w !! a = Some c ->
  check_script (DuckyCommand._script c) = Ok tt ->
  never_raises (DuckyCommand.python_func c) = true ->
  delay_in_clock (DuckyCommand.python_func c) ->
  let d := effective_default_delay w c in
  DuckyCommand._skip_delay c = true \/ 0 <= d <= clock_max ->
  exists w',
    execute (S fuel) a w = (w', Ok tt) /\
    heap w' = heap w /\
    events w'
    = events w
      ++ (if DuckyCommand._skip_delay c then []
          else [EvDefaultDelay a d; EvSleep d])
      ++ EvCall a :: action_events (DuckyCommand.python_func c) /\
    DuckyScript._default_delay (script_obj w')
    = action_default_delay (DuckyCommand.python_func c)
        (DuckyScript._default_delay (script_obj w)) /\
    commands_of (script_obj w') = commands_of (script_obj w).
Proof.
  intros Hc Hchk Hnr _ d Hd. apply execute_simple; try done.
  fold d. destruct Hd as [|[]]; auto.
Qed.

(** X13. No wait of negative length is carried out. For lengths within the
    clock: with a negative default delay in force an execution that does
    not skip it raises ValueError before the function of the command is
    called, and a DELAY of negative length raises ValueError whenever it is
    executed, without a sleep of that length. *)
Theorem negative_wait_raises (fuel : nat) (a : addr)
    (c : DuckyCommand.t) (w : World) :
  heap w !! a = Some c ->
  check_script (DuckyCommand._script c) = Ok tt ->
  let d := effective_default_delay w c in
  (DuckyCommand._skip_delay c = false -> - clock_max <= d < 0 ->
   execute (S fuel) a w
   = (add_events w [EvDefaultDelay a d], Raise ValueError)) /\
  (forall ms,
     DuckyCommand.python_func c = Fn_cmd_delay ms ->
     - clock_max <= ms < 0 ->
     DuckyCommand._skip_delay c = true \/ in_clock d ->
     (execute (S fuel) a w).2 = Raise ValueError /\
     count (is_sleep ms) (events (execute (S fuel) a w).1)
     = count (is_sleep ms) (events w)).
Proof.
  intros Hc Hchk d.
  rewrite execute_unfold, Hc, execute_body_run, default_delay_step_run by done.
  fold d. split.
  - intros Hs Hd. rewrite Hs. cbv zeta.
    destruct (Z.ltb_spec d 0); [done|lia].
  - intros ms -> Hms _.
    assert (Hno : forall n : Z, 0 <= n -> Z.eqb n ms = false).
    { intros n Hn. apply Z.eqb_neq. lia. }
    destruct (DuckyCommand._skip_delay c).
    + cbn [call]. unfold _cmd_delay. rewrite (proj2 (Z.ltb_lt _ _)) by lia.
      split; [done|]. cbn. rewrite count_app. cbn. lia.
    + cbv zeta. destruct (Z.ltb_spec d 0).
      * split; [done|]. cbn. rewrite count_app. cbn. lia.
      * cbn [call]. unfold _cmd_delay. rewrite (proj2 (Z.ltb_lt _ _)) by lia.
        split; [done|]. cbn. rewrite !count_app. cbn.
        rewrite Hno by lia. lia.
Qed.

(** X14. A repeat whose count is zero or negative executes nothing and
    returns, also when it refers to the function [_cmd_rem]; the
    [_skip_delay] of what it refers to is [False] afterwards. *)
Theorem repeat_nonpositive_count (ex : addr -> M unit) (dcmd : Target)
    (n : Z) (w : World) :
  n <= 0 ->
  match dcmd with
  | TCmd s => is_Some (heap w !! s)
  | TRemFunc => True
  end ->
  exists w',
    _cmd_repeat ex dcmd n w = (w', Ok tt) /\
    events w' = events w /\
    length (heap w') = length (heap w) /\
    match dcmd with
    | TCmd s => exists c, heap w' !! s = Some c /\
                          DuckyCommand._skip_delay c = false
    | TRemFunc => rem_skip_delay w' = Some false
    end.
Proof.
  intros Hn Ht. unfold _cmd_repeat.
  replace (Z.to_nat n) with 0%nat by lia. cbn [for_range].
  destruct dcmd as [s|].
  - destruct Ht as [c Hc]. pose proof (lookup_lt_Some _ _ _ Hc) as Hlt.
    cbn [set_skip_delay]. unfold bindM, get_cmd, set_heap, ret, lift.
    rewrite Hc. cbn.
    rewrite list_lookup_insert_eq by done. cbn.
    eexists. split; [done|]. cbn. split; [done|].
    rewrite !length_insert. split; [done|].
    eexists. split; [apply list_lookup_insert_eq; by rewrite length_insert|].
    done.
  - eexists. split; [done|]. done.
Qed.

Lemma set_skip_delay_no_raise (dcmd : Target) (v : bool) (w w' : World)
    (e : Exn) :
  set_skip_delay dcmd v w <> (w', Raise e).
Proof.
  destruct dcmd as [s|]; cbn [set_skip_delay]; [|done].
  unfold bindM, get_cmd, set_heap. by destruct (heap w !! s).
Qed.

(** X15. When a repetition raises, [_cmd_repeat] is left by the exception
    and does not reset the flag: the command it repeated still has
    [_skip_delay] [True]. *)
Theorem repeat_failure_keeps_skip_delay (fuel : nat) (s : addr) (n : Z)
    (w w' : World) (e : Exn) :
  wf_world w ->
  _cmd_repeat (execute fuel) (TCmd s) n w = (w', Raise e) ->
  exists c, heap w' !! s = Some c /\ DuckyCommand._skip_delay c = true.
Proof.
  intros Hw H. unfold _cmd_repeat in H.
  apply bindM_inv in H as [(wb & [] & Hset & H)|[(e' & Hset & _)|[_ [=]]]];
    [|by apply set_skip_delay_no_raise in Hset].
  destruct (set_skip_delay_frame 0 (TCmd s) true _ _ _ Hset Hw) as [_ Hwb].
  apply set_skip_delay_lookup in Hset as [_ (cb & Hcb & Hskip)].
  apply bindM_inv in H as [(wc & [] & _ & H)|[(e' & Hloop & _)|[_ [=]]]];
    [by apply set_skip_delay_no_raise in H|].
  cbn [call_execute] in Hloop.
  assert (Hinv : inv wf_world (frame s (S s))
                   (for_range (Z.to_nat n) (execute fuel s))).
  { apply inv_for_range; [apply frame_refl|apply frame_trans|].
    apply execute_frame. }
  destruct (Hinv _ _ _ Hloop Hwb) as [[Hh _ _ _ _] _].
  destruct (Hh s cb Hcb) as (v & Hc' & Hv). rewrite (Hv (le_n s)) in Hc'.
  eexists. split; [exact Hc'|]. done.
Qed.

(** The rounds of a repeat of a repeat. *)
Lemma nested_loop_count (fuel : nat) (r s : addr) (m : Z) (k : nat) :
  forall w w' : World,
    wf_world w ->
    (exists c, heap w !! r = Some c /\ DuckyCommand._skip_delay c = true /\
               DuckyCommand.python_func c = Fn_cmd_repeat (TCmd s) m) ->
    for_range k (execute fuel r) w = (w', Ok tt) ->
    exists tr, events w' = events w ++ tr /\
               count (is_call s) tr = (k * Z.to_nat m)%nat.
Proof.
  induction k as [|k IH]; intros w w' Hw Hr H.
  - injection H as <-. exists []. by rewrite app_nil_r.
  - cbn [for_range] in H. apply bindM_Ok in H as (w1 & [] & H1 & H2).
    destruct fuel as [|fuel]; [done|].
    destruct Hr as (c & Hc & Hskip & Hf).
    destruct (execute_frame (S fuel) r _ _ _ H1 Hw) as [[Hh _ _ _ _] Hw1].
    destruct (Hh r c Hc) as (v & Hc1 & Hv). rewrite (Hv (le_n r)) in Hc1.
    rewrite execute_unfold, Hc, execute_body_run in H1.
    rewrite default_delay_step_run in H1 by exact (wf_checked w Hw r c Hc).
    rewrite Hskip, Hf in H1. cbn [call] in H1.
    assert (Hwe : wf_world (add_events w [EvCall r])) by by destruct Hw.
    destruct (_cmd_repeat_count fuel s m _ _ Hwe H1)
      as (_ & tr1 & He & Hn1 & _).
    destruct (IH w1 w' Hw1) as (tr & He' & Hn); [|done|].
    { exists (with_skip_delay (DuckyCommand._skip_delay c) c).
      split; [done|]. done. }
    pose proof (wf_acyclic w Hw r c s m Hc Hf) as Hlt.
    exists (EvCall r :: tr1 ++ tr). simpl in He. split.
    { rewrite He', He, <- !app_assoc. done. }
    cbn [count is_call]. rewrite count_app.
    destruct (Nat.eqb_spec r s); [lia|]. lia.
Qed.

(** X16. Repeats nest by multiplication: when a repeat of count [n] on a
    command that is itself a repeat of count [m] returns, the function of
    the innermost command has been called [n * m] times (counts below zero
    taken as zero). *)
Theorem nested_repeat_multiplies (fuel : nat) (r s : addr) (n m : Z)
    (c : DuckyCommand.t) (w w' : World) :
  wf_world w ->
  heap w !! r = Some c ->
  DuckyCommand.python_func c = Fn_cmd_repeat (TCmd s) m ->
  _cmd_repeat (execute fuel) (TCmd r) n w = (w', Ok tt) ->
  exists tr,
    events w' = events w ++ tr /\
    count (is_call r) tr = Z.to_nat n /\
    count (is_call s) tr = (Z.to_nat n * Z.to_nat m)%nat.
Proof.
  intros Hw Hc Hf H.
  destruct (_cmd_repeat_count fuel r n w w' Hw H) as (_ & tr0 & He0 & Hn0 & _).
  unfold _cmd_repeat in H.
  apply bindM_Ok in H as (wb & [] & Hset & H).
  apply bindM_Ok in H as (wc & [] & Hloop & Hreset).
  destruct (set_skip_delay_frame 0 (TCmd r) true _ _ _ Hset Hw) as [_ Hwb].
  apply set_skip_delay_Ok in Hset as (c0 & Hc0 & ->).
  assert (c0 = c) as -> by congruence.
  cbn [call_execute] in Hloop.
  destruct (nested_loop_count fuel r s m (Z.to_nat n) _ wc Hwb)
    as (tr & He & Hn); [|exact Hloop|].
  { exists (with_skip_delay true c). split; [|done]. simpl.
    apply list_lookup_insert_eq. by eapply lookup_lt_Some. }
  apply set_skip_delay_lookup in Hreset as [He' _].
  simpl in He. rewrite <- He' in He.
  assert (tr0 = tr) as -> by (rewrite He0 in He; by apply app_inv_head in He).
  by exists tr.
Qed.

Lemma simple_command_execution_witness :
  let w := loaded ["DEFAULT_DELAY 20"] in
  let c := DuckyCommand.mk false 0 (Some script_iface) 0 "DEFAULT_DELAY 20"
             (Fn_set_default_delay 20) in
  heap w !! 0%nat = Some c /\
  exists w',
    execute 1 0 w = (w', Ok tt) /\
    events w' = events w ++ [EvDefaultDelay 0 0; EvSleep 0; EvCall 0] /\
    DuckyScript._default_delay (script_obj w') = 20.
Proof.
  intros w c. split; [reflexivity|].
  destruct (simple_command_execution 0 0 c w) as (w' & He & _ & Hev & Hd & _).
  - reflexivity.
  - reflexivity.
  - reflexivity.
  - exact I.
  - right. vm_compute. split; discriminate.
  - exists w'. split; [exact He|]. split; [exact Hev|exact Hd].
Defined.

Lemma negative_wait_raises_witness :
  let w := loaded ["DELAY -5"] in
  let c := DuckyCommand.mk false 0 (Some script_iface) 0 "DELAY -5"
             (Fn_cmd_delay (-5)) in
  heap w !! 0%nat = Some c /\
  (execute 1 0 w).2 = Raise ValueError.
Proof.
  intros w c. split; [reflexivity|].
  destruct (negative_wait_raises 0 0 c w eq_refl eq_refl) as [_ H].
  destruct (H (-5) eq_refl) as [Hr _].
  - unfold clock_max. lia.
  - right. vm_compute. split; discriminate.
  - exact Hr.
Defined.

Lemma repeat_nonpositive_count_witness :
  let w := loaded ["STRING a"; "REPEAT 0"] in
  exists w',
    _cmd_repeat (execute 1) (TCmd 0) 0 w = (w', Ok tt) /\
    events w' = events w.
Proof.
  intros w.
  destruct (repeat_nonpositive_count (execute 1) (TCmd 0) 0 w)
    as (w' & H & He & _).
  - lia.
  - vm_compute. eauto.
  - exists w'. split; [exact H|exact He].
Defined.

Lemma repeat_failure_keeps_skip_delay_witness :
  let w := loaded ["DELAY -1"; "REPEAT 2"] in
  let w' := (_cmd_repeat (execute 2) (TCmd 0) 2 w).1 in
  _cmd_repeat (execute 2) (TCmd 0) 2 w = (w', Raise ValueError) /\
  DuckyCommand._skip_delay <$> heap w !! 0%nat = Some false /\
  exists c, heap w' !! 0%nat = Some c /\ DuckyCommand._skip_delay c = true.
Proof.
  intros w w'. split; [reflexivity|]. split; [reflexivity|].
  apply (repeat_failure_keeps_skip_delay 2 0 2 w w' ValueError).
  - apply loaded_wf.
  - reflexivity.
Defined.

Lemma nested_repeat_multiplies_witness :
  let w := loaded ["STRING a"; "REPEAT 2"; "REPEAT 3"] in
  let w' := (_cmd_repeat (execute 3) (TCmd 1) 3 w).1 in
  _cmd_repeat (execute 3) (TCmd 1) 3 w = (w', Ok tt) /\
  exists tr,
    events w' = events w ++ tr /\
    count (is_call 1) tr = 3%nat /\
    count (is_call 0) tr = 6%nat.
Proof.
  intros w w'. split; [vm_compute; reflexivity|].
  apply (nested_repeat_multiplies 3 1 0 3 2
           (DuckyCommand.mk false 0 (Some script_iface) 1 "REPEAT 2"
              (Fn_cmd_repeat (TCmd 0) 2)) w w').
  - apply loaded_wf.
  - vm_compute; reflexivity.
  - reflexivity.
  - vm_compute; reflexivity.
Defined.

(** ** Loading and running *)

Lemma getitem_cases {A : Type} (l : list A) (i : Z) :
  (exists x, Py.getitem l i = Ok x) \/ Py.getitem l i = Raise IndexError.
Proof. unfold Py.getitem. repeat case_match; eauto. Qed.

Section LoadFacts.

Variable darwin : bool.
Variable KEYBOARD_KEYS : list string.

(** Whether a line translates, and the exception when it does not, depend
    neither on the line number nor on the commands before it. *)
Lemma _to_python_outcome (self_script : option ScriptDict)
    (lineno lineno' : Z) (commands commands' : list addr) (dline : string) :
  outcome (_to_python darwin KEYBOARD_KEYS self_script lineno commands dline)
  = outcome (_to_python darwin KEYBOARD_KEYS self_script lineno' commands' dline).
Proof.
  unfold _to_python.
  destruct (Py.getitem (Py.split1 " " (Py.strip dline)) 0) as [d0| |];
    cbn [bindR]; [|done..].
  destruct (is_valid_cmd darwin KEYBOARD_KEYS d0) as [valid| |];
    cbn [bindR]; [|done..].
  destruct (negb valid); [done|].
  destruct (if is_valid_alias d0 then get_alias_target d0 else Ok (Some d0))
    as [d0'| |]; cbn [bindR]; [|done..].
  repeat (case_bool_decide; [try done|]); [|done].
  destruct (Py.getitem (Py.split1 " " (Py.strip dline)) 1) as [d1| |];
    cbn [bindR]; [|done..].
  destruct (script_item self_script has_commands) as [[]| |];
    cbn [bindR]; [|done..].
  destruct (getitem_cases commands (lineno - 1)) as [[x ->]| ->],
           (getitem_cases commands' (lineno' - 1)) as [[x' ->]| ->];
    cbn [bindR]; by destruct (Py.int d1).
Qed.

Lemma DuckyCommand_init_outcome (dline : string) (lineno default_delay : Z)
    (script : option ScriptDict) (w : World) :
  outcome (DuckyCommand_init darwin KEYBOARD_KEYS dline lineno default_delay
             script w).2
  = outcome (let* _ := check_script script in
             _to_python darwin KEYBOARD_KEYS script 0 [] dline)%res.
Proof.
  unfold DuckyCommand_init.
  destruct (check_script script) as [[]| |]; cbn [bindR]; [|done..].
  rewrite <- (_to_python_outcome script lineno 0
                (DuckyScript.iface_commands (script_obj w)) [] dline).
  by destruct (_to_python _ _ _ _ _ _) as [[skip f]| |].
Qed.

Lemma load_lines_outcome (dfile : list string) :
  forall (lineno : Z) (w : World),
    is_tuple (script_obj w) = false ->
    (load_lines darwin KEYBOARD_KEYS lineno dfile w).2
    = outcome (mapR (_to_python darwin KEYBOARD_KEYS (Some script_iface) 0 [])
                 (statements dfile)).
Proof.
  induction dfile as [|line rest IH]; intros lineno w Ht; [done|].
  cbn [load_lines statements].
  destruct (0 <? Z.of_nat (String.length (Py.strip line))) eqn:Hblank.
  - unfold bindM at 1 2.
    pose proof (DuckyCommand_init_outcome (Py.strip line) lineno 0
                  (Some script_iface) w) as Hout.
    destruct (DuckyCommand_init _ _ _ _ _ _ w) as [w1 r1] eqn:Hinit.
    apply DuckyCommand_init_inv in Hinit.
    change (check_script (Some script_iface)) with (Ok tt) in Hout.
    cbn [bindR snd] in Hout. cbn [mapR].
    destruct (_to_python darwin KEYBOARD_KEYS (Some script_iface) 0 []
                (Py.strip line)) as [y| |]; destruct r1 as [a| |];
      cbn [outcome] in Hout; try discriminate Hout;
      cbn [bindR outcome snd]; try congruence.
    destruct Hinit as (-> & skip & f & _ & _ & ->).
    match goal with
    | |- context [commands_append ?a ?w1] =>
        destruct (commands_append_list a w1 Ht) as (w2 & -> & _ & _ & _ & Ht2 & _)
    end.
    rewrite (IH _ _ Ht2).
    by destruct (mapR _ (statements rest)).
  - unfold bindM at 1, ret, lift. by apply IH.
Qed.

(** X17. Whether [load] returns is decided by the statements of the file
    alone, each taken on its own: it returns when every statement
    translates, and otherwise raises the exception of the first one that
    does not, whatever the script held before. *)
Theorem load_outcome (dfile : list string) (w : World) :
  (load darwin KEYBOARD_KEYS dfile w).2
  = outcome (mapR (_to_python darwin KEYBOARD_KEYS (Some script_iface) 0 [])
               (statements dfile)).
Proof.
  unfold load. unfold bindM at 1.
  assert (H : exists w1,
             (if is_tuple (script_obj w) then set_commands (OwnList []) w
              else (w, Ok tt)) = (w1, Ok tt) /\
             is_tuple (script_obj w1) = false).
  { destruct (is_tuple (script_obj w)) eqn:Ht; eexists; split; done. }
  destruct H as (w1 & -> & Ht1). unfold bindM at 1.
  pose proof (load_lines_outcome dfile 0 w1 Ht1) as Hl.
  destruct (load_lines darwin KEYBOARD_KEYS 0 dfile w1) as [w2 r2].
  cbn [snd] in Hl. rewrite <- Hl. by destruct r2 as [[]| |].
Qed.

Lemma load_lines_objects (dfile : list string) :
  forall (lineno : Z) (w w' : World) (r : Res unit),
    load_lines darwin KEYBOARD_KEYS lineno dfile w = (w', r) ->
    is_tuple (script_obj w) = false ->
    exists new,
      heap w' = heap w ++ new /\
      Forall (fun c => DuckyCommand._script c = Some script_iface /\
                       DuckyCommand._default_delay c = 0) new /\
      (r = Ok tt ->
       DuckyCommand.lineno <$> new = statement_linenos lineno dfile).
Proof.
  induction dfile as [|line rest IH]; intros lineno w w' r H Ht.
  - injection H as <- <-. exists []. by rewrite app_nil_r.
  - cbn [load_lines statement_linenos] in *.
    destruct (0 <? Z.of_nat (String.length (Py.strip line))) eqn:Hblank.
    + unfold bindM at 1 2 in H.
      destruct (DuckyCommand_init _ _ _ _ _ _ w) as [w1 r1] eqn:Hinit.
      apply DuckyCommand_init_inv in Hinit.
      destruct r1 as [a|e|].
      * destruct Hinit as (-> & skip & f & _ & _ & ->).
        match type of H with
        | context [commands_append ?a ?w1] =>
            destruct (commands_append_list a w1 Ht)
              as (w2 & Happ & Hh & _ & _ & Ht2 & _);
            rewrite Happ in H
        end.
        destruct (IH _ _ _ _ H Ht2) as (new & Hh' & Hall & Hr).
        simpl in Hh. eexists (_ :: new).
        rewrite Hh', Hh, <- app_assoc. split; [done|].
        split; [by constructor|].
        intros Hok. cbn. f_equal. by apply Hr.
      * subst w1. injection H as <- <-. exists []. by rewrite app_nil_r.
      * subst w1. injection H as <- <-. exists []. by rewrite app_nil_r.
    + unfold bindM at 1, ret in H. by apply (IH _ _ _ _ H Ht).
Qed.

(** X18. The commands a [load] that returns has built: they carry, in
    order, the stripped statements of the file and the numbers of their
    lines, counted from 0 with the blank lines included; each belongs to the
    script and has no default delay of its own. *)
Theorem load_builds_commands (dfile : list string) (w w' : World) :
  load darwin KEYBOARD_KEYS dfile w = (w', Ok tt) ->
  exists new,
    heap w' = heap w ++ new /\
    DuckyCommand.raw_line <$> new = statements dfile /\
    DuckyCommand.lineno <$> new = statement_linenos 0 dfile /\
    Forall (fun c => DuckyCommand._script c = Some script_iface /\
                     DuckyCommand._default_delay c = 0) new.
Proof.
  unfold load. intros H.
  apply bindM_Ok in H as (w1 & [] & H1 & H).
  assert (Hw1 : heap w1 = heap w /\ is_tuple (script_obj w1) = false).
  { destruct (is_tuple (script_obj w)) eqn:Ht; injection H1 as <-; done. }
  destruct Hw1 as [Hh1 Ht1].
  apply bindM_Ok in H as (w2 & [] & H2 & [= <-]).
  destruct (load_lines_spec _ _ _ _ _ _ _ H2 Ht1)
    as (new & Hh & _ & _ & _ & _ & Hraw).
  destruct (load_lines_objects _ _ _ _ _ H2 Ht1) as (new' & Hh' & Hall & Hno).
  assert (new' = new) as ->.
  { rewrite Hh in Hh'. by apply app_inv_head in Hh'. }
  exists new. cbn. rewrite Hh, Hh1. auto.
Qed.

Lemma load_quiet (dfile : list string) (w w' : World) (r : Res unit) :
  load darwin KEYBOARD_KEYS dfile w = (w', r) ->
  events w' = events w /\
  DuckyScript._default_delay (script_obj w')
  = DuckyScript._default_delay (script_obj w).
Proof.
  unfold load. intros H.
  assert (Hpre : forall w1 r1,
            (if is_tuple (script_obj w) then set_commands (OwnList []) w
             else (w, Ok tt)) = (w1, r1) ->
            events w1 = events w /\
            DuckyScript._default_delay (script_obj w1)
            = DuckyScript._default_delay (script_obj w) /\
            is_tuple (script_obj w1) = false /\ r1 = Ok tt).
  { intros w1 r1. destruct (is_tuple (script_obj w)) eqn:Ht;
      intros [= <- <-]; done. }
  apply bindM_inv in H as [(w1 & [] & H1 & H)|[(e & H1 & _)|[H1 _]]];
    [|by apply Hpre in H1 as (_ & _ & _ & [=])..].
  apply Hpre in H1 as (He1 & Hd1 & Ht1 & _).
  apply bindM_inv in H as [(w2 & [] & H2 & [= <- _])|[(e & H2 & _)|[H2 _]]];
    destruct (load_lines_spec _ _ _ _ _ _ _ H2 Ht1) as (_ & _ & He & Hd & _);
    cbn; split; congruence.
Qed.

(** X19. Loading reaches neither the host nor the objects there are: with
    any outcome it adds no event, leaves the default delay of the script as
    it is, and only adds objects to the store. *)
Theorem load_is_silent (dfile : list string) (w : World) :
  let w' := (load darwin KEYBOARD_KEYS dfile w).1 in
  events w' = events w /\
  DuckyScript._default_delay (script_obj w')
  = DuckyScript._default_delay (script_obj w) /\
  exists new, heap w' = heap w ++ new.
Proof.
  intros w'. destruct (load darwin KEYBOARD_KEYS dfile w) as [w0 r] eqn:H.
  subst w'. cbn [fst]. destruct (load_quiet _ _ _ _ H) as [He Hd].
  split; [done|]. split; [done|]. by eapply load_heap.
Qed.

(** X20. [run] on a script that is not loaded and whose file does not
    load: it raises the exception of the load and executes nothing, not
    even the statements before the failing line. *)
Theorem run_failing_load (fuel : nat) (dfile : list string) (w w' : World)
    (e : Exn) :
  is_tuple (script_obj w) = false ->
  load darwin KEYBOARD_KEYS dfile w = (w', Raise e) ->
  run darwin KEYBOARD_KEYS fuel dfile w = (w', Raise e) /\
  events w' = events w.
Proof.
  intros Ht H. split.
  - unfold run. unfold bindM at 1. rewrite Ht. cbn [negb]. by rewrite H.
  - by destruct (load_quiet _ _ _ _ H).
Qed.

End LoadFacts.

Lemma load_builds_commands_witness :
  let w := DuckyScript_init "payload.txt" in
  let dfile := file_of ["REM note"; EmptyString; "STRING a"] in
  let w' := (load false pyautogui_KEYBOARD_KEYS dfile w).1 in
  load false pyautogui_KEYBOARD_KEYS dfile w = (w', Ok tt) /\
  exists new,
    heap w' = heap w ++ new /\
    DuckyCommand.raw_line <$> new = ["REM note"; "STRING a"] /\
    DuckyCommand.lineno <$> new = [0; 2].
Proof.
  intros w dfile w'. split; [reflexivity|].
  destruct (load_builds_commands false pyautogui_KEYBOARD_KEYS dfile w w'
              eq_refl) as (new & Hh & Hraw & Hno & _).
  exists new. split; [exact Hh|]. split; [exact Hraw|exact Hno].
Defined.

Lemma run_failing_load_witness :
  let w := DuckyScript_init "payload.txt" in
  let dfile := file_of ["STRING a"; "QUACK"] in
  let w' := (load false pyautogui_KEYBOARD_KEYS dfile w).1 in
  is_tuple (script_obj w) = false /\
  load false pyautogui_KEYBOARD_KEYS dfile w = (w', Raise ValueError) /\
  run false pyautogui_KEYBOARD_KEYS 1 dfile w = (w', Raise ValueError) /\
  events w' = events w.
Proof.
  intros w dfile w'. split; [reflexivity|]. split; [reflexivity|].
  apply (run_failing_load false pyautogui_KEYBOARD_KEYS 1 dfile w w' ValueError);
    reflexivity.
Defined.

Lemma called_app (tr1 tr2 : list Event) :
  called (tr1 ++ tr2) = called tr1 ++ called tr2.
Proof.
  induction tr1 as [|ev tr1 IH]; [done|].
  destruct ev; cbn [called app]; by rewrite ?IH.
Qed.

Lemma called_action (f : PyFunc) : called (action_events f) = [].
Proof. by destruct f. Qed.

Lemma nonneg_waits_never_raises (f : PyFunc) :
  nonneg_waits f = true -> never_raises f = true.
Proof. destruct f; cbn; try done. by intros [? _]%andb_prop. Qed.

Lemma for_each_safe (fuel : nat) (l : list addr) :
  forall w : World,
    0 <= DuckyScript._default_delay (script_obj w) ->
    Forall (fun a => exists c,
              heap w !! a = Some c /\
              DuckyCommand._script c = Some script_iface /\
              nonneg_waits (DuckyCommand.python_func c) = true) l ->
    exists w',
      for_each l (execute (S fuel)) w = (w', Ok tt) /\
      heap w' = heap w /\
      exists tr, events w' = events w ++ tr /\ called tr = l.
Proof.
  induction l as [|a l IH]; intros w Hd Hall.
  - exists w. split; [done|]. split; [done|]. exists []. by rewrite app_nil_r.
  - apply Forall_cons in Hall as [(c & Hc & Hs & Hn) Hall].
    assert (Heff : effective_default_delay w c
                   = DuckyScript._default_delay (script_obj w)).
    { unfold effective_default_delay. by rewrite Hs. }
    destruct (execute_simple fuel a c w Hc) as (w1 & H1 & Hh1 & He1 & Hd1 & _).
    { by rewrite Hs. }
    { by apply nonneg_waits_never_raises. }
    { right. by rewrite Heff. }
    destruct (IH w1) as (w' & H' & Hh' & tr & He' & Hcalled).
    { rewrite Hd1. destruct (DuckyCommand.python_func c); cbn in *; try done.
      apply andb_prop in Hn as [Hn _]. by apply Z.leb_le. }
    { by rewrite Hh1. }
    exists w'. cbn [for_each]. unfold bindM at 1. rewrite H1.
    split; [done|]. split; [congruence|].
    eexists. rewrite He', He1, <- !app_assoc. split; [done|].
    rewrite !called_app. cbn [called]. rewrite called_action, Hcalled.
    by destruct (DuckyCommand._skip_delay c).
Qed.

(** X21. Running a loaded script whose commands are no repeats and ask for
    no negative wait, under a default delay that is not negative, every
    length being within the clock: [run] returns, the function of each
    command of the script has been called once, in the order of the script,
    and no object has changed. *)
Theorem run_calls_commands_in_order (darwin : bool)
    (KEYBOARD_KEYS : list string) (fuel : nat) (dfile : list string)
    (w : World) :
  is_tuple (script_obj w) = true ->
  0 <= DuckyScript._default_delay (script_obj w) <= clock_max ->
  Forall (fun a => exists c,
            heap w !! a = Some c /\
            DuckyCommand._script c = Some script_iface /\
            nonneg_waits (DuckyCommand.python_func c) = true)
    (commands_of (script_obj w)) ->
  exists w',
    run darwin KEYBOARD_KEYS (S fuel) dfile w = (w', Ok tt) /\
    heap w' = heap w /\
    exists tr, events w' = events w ++ tr /\
               called tr = commands_of (script_obj w).
Proof.
  intros Ht [Hd _] Hall. unfold run. unfold bindM at 1. rewrite Ht.
  cbn [negb]. by apply for_each_safe.
Qed.

Lemma run_calls_commands_in_order_witness :
  let w := loaded ["DEFAULT_DELAY 10"; "STRING a"; "GUI r"] in
  exists w',
    run false pyautogui_KEYBOARD_KEYS 1 [] w = (w', Ok tt) /\
    heap w' = heap w /\
    exists tr, events w' = events w ++ tr /\ called tr = [0; 1; 2]%nat.
Proof.
  intros w.
  apply (run_calls_commands_in_order false pyautogui_KEYBOARD_KEYS 0 [] w).
  - reflexivity.
  - vm_compute. split; discriminate.
  - repeat constructor; eexists; (split; [vm_compute; reflexivity|]);
      split; reflexivity.
Defined.

(** ** The default delay of a command, and its script dictionary *)

(** X22. Assigning [default_delay] on a command: for a command of a script
    the assignment raises TypeError and changes nothing, so it never sets
    the delay of the script; for a command without a script it sets the
    delay of the command, which reading the property then returns, and
    leaves every other object alone. *)
Theorem default_delay_setter_spec (a : addr) (new_delay : Z)
    (c : DuckyCommand.t) (w : World) :
  heap w !! a = Some c ->
  check_script (DuckyCommand._script c) = Ok tt ->
  (truthy (DuckyCommand._script c) = true ->
   default_delay_setter a new_delay w = (w, Raise TypeError)) /\
  (truthy (DuckyCommand._script c) = false ->
   exists w' c',
     default_delay_setter a new_delay w = (w', Ok tt) /\
     heap w' !! a = Some c' /\
     default_delay c' w' = (w', Ok new_delay) /\
     (forall b, b <> a -> heap w' !! b = heap w !! b) /\
     script_obj w' = script_obj w /\ events w' = events w).
Proof.
  intros Hc Hchk. unfold default_delay_setter, bindM, get_cmd. rewrite Hc.
  split; intros Ht; rewrite Ht.
  - unfold check_script in Hchk. rewrite Ht in Hchk.
    destruct (DuckyCommand._script c) as [d|]; [|done].
    destruct (has_get_default_delay d), (has_set_default_delay d); done.
  - pose proof (lookup_lt_Some _ _ _ Hc) as Hlt.
    eexists _, (with_default_delay new_delay c). split; [done|]. cbn.
    split; [by apply list_lookup_insert_eq|].
    split; [unfold default_delay; cbn; by rewrite Ht|].
    split; [|done]. intros b Hb. by apply list_lookup_insert_ne.
Qed.

Lemma default_delay_setter_spec_witness :
  let w := loaded ["STRING a"] in
  let c := DuckyCommand.mk false 0 (Some script_iface) 0 "STRING a"
             (Fn_typewrite "a") in
  heap w !! 0%nat = Some c /\
  default_delay_setter 0 50 w = (w, Raise TypeError).
Proof.
  intros w c. split; [reflexivity|].
  destruct (default_delay_setter_spec 0 50 c w eq_refl eq_refl) as [H _].
  apply H. reflexivity.
Defined.

(** X23. A [script] dictionary that has some of the keys
    [get_default_delay], [set_default_delay] and [commands] but not all of
    them is refused: the constructor raises ValueError for every line, also
    one that needs no script, and leaves no object. *)
Theorem partial_script_refused (darwin : bool) (KEYBOARD_KEYS : list string)
    (dline : string) (lineno default_delay : Z) (d : ScriptDict) (w : World) :
  truthy (Some d) = true ->
  ((has_get_default_delay d && has_set_default_delay d) && has_commands d)
  = false ->
  DuckyCommand_init darwin KEYBOARD_KEYS dline lineno default_delay (Some d) w
  = (w, Raise ValueError).
Proof.
  intros Ht Hd. unfold DuckyCommand_init, check_script. by rewrite Ht, Hd.
Qed.

Lemma partial_script_refused_witness :
  DuckyCommand_init false pyautogui_KEYBOARD_KEYS "STRING a" (-1) 0
    (Some (mkScriptDict true false true)) (DuckyScript_init "payload.txt")
  = (DuckyScript_init "payload.txt", Raise ValueError).
Proof.
  apply (partial_script_refused false pyautogui_KEYBOARD_KEYS "STRING a" (-1) 0
           (mkScriptDict true false true) (DuckyScript_init "payload.txt"));
    reflexivity.
Defined.

(** ** What a repeat is bound to, and when the file is read *)

(** The target of a repeat is what the list of the script holds at
    [lineno - 1], or [_cmd_rem]. *)
Lemma _to_python_repeat_target (darwin : bool) (KEYBOARD_KEYS : list string)
    (self_script : option ScriptDict) (self_lineno : Z) (commands : list addr)
    (dline : string) (skip : bool) (t : Target) (n : Z) :
  _to_python darwin KEYBOARD_KEYS self_script self_lineno commands dline
  = Ok (skip, Fn_cmd_repeat t n) ->
  t = match Py.getitem commands (self_lineno - 1) with
      | Ok a => TCmd a
      | _ => TRemFunc
      end.
Proof.
  unfold _to_python. intros H.
  apply bindR_Ok in H as (d0 & _ & H).
  apply bindR_Ok in H as (valid & _ & H).
  destruct (negb valid); [done|].
  apply bindR_Ok in H as (d0' & _ & H).
  repeat match type of H with
         | (if bool_decide ?P then _ else _) = _ =>
             destruct (bool_decide P);
             [try (repeat (apply bindR_Ok in H as (? & _ & H)); done)|]
         end.
  - apply bindR_Ok in H as (d1 & _ & H).
    apply bindR_Ok in H as (to_repeat & Hto & H).
    apply bindR_Ok in H as (n' & _ & H). injection H as _ -> _.
    apply bindR_Ok in Hto as ([] & _ & Hto).
    destruct (Py.getitem commands (self_lineno - 1)) as [a|e|] eqn:Hg.
    + by injection Hto as <-.
    + destruct e; try done. by injection Hto as <-.
    + done.
  - apply bindR_Ok in H as (parts & _ & H).
    by destruct (existsb is_None (concat parts)).
Qed.

Lemma load_lines_fresh (darwin : bool) (KEYBOARD_KEYS : list string)
    (dfile : list string) :
  forall (lineno : Z) (w w' : World) (r : Res unit),
    load_lines darwin KEYBOARD_KEYS lineno dfile w = (w', r) ->
    DuckyScript.commands (script_obj w) = SharedList ->
    DuckyScript.iface_commands (script_obj w) = seq 0 (length (heap w)) ->
    Z.of_nat (length (heap w)) = lineno ->
    Forall (fun line => Py.strip line <> EmptyString) dfile ->
    (forall k c, heap w !! k = Some c ->
       DuckyCommand.lineno c = Z.of_nat k /\
       forall t n, DuckyCommand.python_func c = Fn_cmd_repeat t n ->
                   t = match k with O => TRemFunc | S k' => TCmd k' end) ->
    forall k c, heap w' !! k = Some c ->
      DuckyCommand.lineno c = Z.of_nat k /\
      forall t n, DuckyCommand.python_func c = Fn_cmd_repeat t n ->
                  t = match k with O => TRemFunc | S k' => TCmd k' end.
Proof.
  induction dfile as [|line rest IH];
    intros lineno w w' r H Hshared Hiface Hlen Hall HP.
  - by injection H as <- <-.
  - apply Forall_cons in Hall as [Hline Hall]. cbn [load_lines] in H.
    assert (Hblank : (0 <? Z.of_nat (String.length (Py.strip line))) = true).
    { apply Z.ltb_lt. destruct (Py.strip line); [done|]. cbn. lia. }
    rewrite Hblank in H. unfold bindM at 1 2 in H.
    destruct (DuckyCommand_init _ _ _ _ _ _ w) as [w1 r1] eqn:Hinit.
    apply DuckyCommand_init_inv in Hinit.
    destruct r1 as [a|e|]; [|subst w1; by injection H as <- <-..].
    destruct Hinit as (-> & skip & f & _ & Hpy & ->).
    unfold commands_append in H at 1. cbn [script_obj heap] in H.
    rewrite Hshared in H. unfold set_script in H at 1.
    cbn [script_obj heap rem_skip_delay events] in H.
    eapply (IH _ _ _ _ H); clear IH H; cbn [script_obj heap DuckyScript.commands
      DuckyScript.iface_commands]; [done| | |done|].
    + rewrite Hiface, length_app. cbn [length].
      replace (length (heap w) + 1)%nat with (S (length (heap w))) by lia.
      by rewrite seq_S.
    + rewrite length_app. cbn [length]. lia.
    + intros k c Hk.
      apply lookup_app_Some in Hk as [Hk|[Hge Hk]]; [by apply HP|].
      apply list_lookup_singleton_Some in Hk as [Hk0 <-].
      assert (k = length (heap w)) as -> by lia.
      cbn [DuckyCommand.lineno DuckyCommand.python_func].
      split; [lia|]. intros t n ->.
      apply _to_python_repeat_target in Hpy. rewrite Hpy, Hiface, <- Hlen.
      destruct (length (heap w)) as [|m].
      * done.
      * replace (Z.of_nat (S m) - 1) with (Z.of_nat m) by lia.
        rewrite (getitem_nat (seq 0 (S m)) m m); [done|].
        apply lookup_seq_lt. lia.
Qed.

(** X24. The first load of a file that has no blank line: the command of
    line [k] is the [k]-th object built, and a REPEAT on line [k] is bound
    to the command of line [k - 1]; on line 0 it is bound to the function
    [_cmd_rem]. This holds for what a failing load has built, too. *)
Theorem repeat_binds_previous_statement (darwin : bool)
    (KEYBOARD_KEYS : list string) (dpath : string) (dfile : list string) :
  Forall (fun line => Py.strip line <> EmptyString) dfile ->
  let w' := (load darwin KEYBOARD_KEYS dfile (DuckyScript_init dpath)).1 in
  forall k c, heap w' !! k = Some c ->
    DuckyCommand.lineno c = Z.of_nat k /\
    forall t n, DuckyCommand.python_func c = Fn_cmd_repeat t n ->
                t = match k with O => TRemFunc | S k' => TCmd k' end.
Proof.
  intros Hall w'. subst w'. unfold load. unfold bindM at 1.
  cbn [DuckyScript_init is_tuple script_obj DuckyScript.commands].
  unfold bindM at 1.
  destruct (load_lines darwin KEYBOARD_KEYS 0 dfile (DuckyScript_init dpath))
    as [w1 r1] eqn:Hl.
  assert (HP : forall k c, heap w1 !! k = Some c ->
            DuckyCommand.lineno c = Z.of_nat k /\
            forall t n, DuckyCommand.python_func c = Fn_cmd_repeat t n ->
                        t = match k with O => TRemFunc | S k' => TCmd k' end).
  { eapply (load_lines_fresh _ _ _ _ _ _ _ Hl); try done. }
  by destruct r1 as [[]| |].
Qed.

Lemma repeat_binds_previous_statement_witness :
  let dfile := file_of ["STRING a"; "REPEAT 2"] in
  let w' := (load false pyautogui_KEYBOARD_KEYS dfile
               (DuckyScript_init "payload.txt")).1 in
  Forall (fun line => Py.strip line <> EmptyString) dfile /\
  DuckyCommand.python_func <$> heap w' !! 1%nat
  = Some (Fn_cmd_repeat (TCmd 0) 2).
Proof.
  intros dfile w'.
  assert (Hall : Forall (fun line => Py.strip line <> EmptyString) dfile).
  { repeat constructor; vm_compute; discriminate. }
  split; [exact Hall|].
  destruct (heap w' !! 1%nat) as [c|] eqn:Hc; [|vm_compute in Hc; discriminate].
  destruct (repeat_binds_previous_statement false pyautogui_KEYBOARD_KEYS
              "payload.txt" dfile Hall 1%nat c Hc) as [_ Ht].
  assert (Hf : exists t, DuckyCommand.python_func c = Fn_cmd_repeat t 2).
  { vm_compute in Hc. injection Hc as <-. by eexists. }
  destruct Hf as [t Hf]. simpl. rewrite Hf. by rewrite (Ht t 2 Hf).
Defined.

Lemma execute_keeps_commands (fuel : nat) (l : list addr) :
  inv wf_world
    (fun w w' => DuckyScript.commands (script_obj w')
                 = DuckyScript.commands (script_obj w))
    (for_each l (execute fuel)).
Proof.
  apply inv_for_each; [done|intros w1 w2 w3 H1 H2; congruence|].
  intros a. eapply inv_mono; [|apply execute_frame].
  intros w w'. apply fr_commands.
Qed.

(** X25. The file is read once: whenever [run] got past loading, whether
    it then returns or an execution raises, the script is loaded afterwards,
    and a later [run] does not look at the file again. *)
Theorem run_loads_once (darwin : bool) (KEYBOARD_KEYS : list string)
    (fuel : nat) (dfile : list string) (w w' : World) (r : Res unit) :
  wf_world w ->
  is_tuple (script_obj w) = true
  \/ (load darwin KEYBOARD_KEYS dfile w).2 = Ok tt ->
  run darwin KEYBOARD_KEYS fuel dfile w = (w', r) ->
  is_tuple (script_obj w') = true /\
  forall dfile1 dfile2,
    run darwin KEYBOARD_KEYS fuel dfile1 w'
    = run darwin KEYBOARD_KEYS fuel dfile2 w'.
Proof.
  intros Hw Hload H.
  assert (Ht' : is_tuple (script_obj w') = true).
  { unfold run in H.
    assert (H1 : exists w1,
              (if negb (is_tuple (script_obj w))
               then load darwin KEYBOARD_KEYS dfile w else (w, Ok tt))
              = (w1, Ok tt) /\
              wf_world w1 /\ is_tuple (script_obj w1) = true).
    { destruct (is_tuple (script_obj w)) eqn:Ht; cbn [negb].
      - by exists w.
      - destruct Hload as [|Hload]; [done|].
        destruct (load darwin KEYBOARD_KEYS dfile w) as [w1 r1] eqn:Hl.
        cbn [snd] in Hload. subst r1. exists w1. split; [done|].
        split; [by destruct (load_ext darwin KEYBOARD_KEYS dfile _ _ _ Hl Hw)|].
        unfold load in Hl.
        apply bindM_Ok in Hl as (wa & [] & _ & Hl).
        apply bindM_Ok in Hl as (wb & [] & _ & Hl).
        by injection Hl as <-. }
    destruct H1 as (w1 & H1 & Hw1 & Ht1).
    unfold bindM at 1 in H. rewrite H1 in H.
    destruct (execute_keeps_commands fuel _ _ _ _ H Hw1) as [Hc _].
    unfold is_tuple in *. by rewrite Hc. }
  split; [done|]. intros dfile1 dfile2. unfold run, bindM.
  by rewrite Ht'.
Qed.

Lemma run_loads_once_witness :
  let w := DuckyScript_init "payload.txt" in
  let dfile := file_of ["STRING a"] in
  let w' := (run false pyautogui_KEYBOARD_KEYS 1 dfile w).1 in
  run false pyautogui_KEYBOARD_KEYS 1 dfile w = (w', Ok tt) /\
  is_tuple (script_obj w') = true /\
  run false pyautogui_KEYBOARD_KEYS 1 [] w'
  = run false pyautogui_KEYBOARD_KEYS 1 dfile w'.
Proof.
  intros w dfile w'. split; [reflexivity|].
  destruct (run_loads_once false pyautogui_KEYBOARD_KEYS 1 dfile w w' (Ok tt))
    as [Ht Hrun].
  - apply DuckyScript_init_wf.
  - right. reflexivity.
  - reflexivity.
  - split; [exact Ht|apply Hrun].
Defined.
